(** * uc-intg-demo: the demo media-player device, its command handler and its
    setup flow, embedded in Rocq and checked against the specification.

    Layout, following the Python modules:
    - [const]         the show list and the configuration dataclass;
    - [ucapi]         the members of the ucapi enumerations the code mentions;
    - [Py]            Python built-ins the code calls (random.choice, str.strip,
                      str.replace, uuid.uuid4, slicing);
    - [Eff]           a state-and-exception monad: a method of [DemoDevice]
                      mutates [self] and may raise, and a raise keeps the
                      mutations made before it;
    - [device]        [DemoDevice] and its methods;
    - [media_player]  [DemoMediaPlayer.handle_command];
    - [setup]         [DemoSetupFlow];
    - then the theorems. *)

From Stdlib Require Import NArith Ascii String.
From stdpp Require Import base option strings list gmap.

Open Scope string_scope.

(* ===================================================================== *)
(** ** const.py *)
(* ===================================================================== *)

Module const.

Definition TV_SHOWS : list string :=
  [ "Breaking Bad";
    "The Wire";
    "Game of Thrones";
    "The Sopranos";
    "Mad Men";
    "The Office";
    "Friends";
    "Seinfeld";
    "Stranger Things";
    "The Mandalorian";
    "Ted Lasso";
    "Succession";
    "Better Call Saul";
    "The Crown";
    "Chernobyl";
    "Fleabag";
    "Black Mirror";
    "Fargo";
    "True Detective";
    "Westworld" ].

Record DemoConfig := {
  identifier : string;
  name : string;
  address : string
}.

End const.

(* ===================================================================== *)
(** ** The ucapi enumerations *)
(* ===================================================================== *)

Module ucapi.

(** [ucapi.media_player.States].  The device only ever assigns [OFF],
    [ON], [PLAYING] and [PAUSED]; the other members are kept so that the
    membership tests of the methods have their fall-through case. *)
Inductive States :=
| UNAVAILABLE | UNKNOWN | ON | OFF | PLAYING | PAUSED | STANDBY | BUFFERING.

#[global] Instance States_eq_dec : EqDecision States.
Proof. solve_decision. Defined.

(** The members of [ucapi.StatusCodes] that the command handler returns. *)
Inductive StatusCodes := OK | BAD_REQUEST | NOT_IMPLEMENTED.

(** The members of [ucapi.IntegrationSetupError] that the setup flow names. *)
Inductive IntegrationSetupError := CONNECTION_REFUSED | TIMEOUT.

Inductive EntityTypes := MEDIA_PLAYER.

(** [ucapi_framework.device.DeviceEvents]: the one event the device emits. *)
Inductive DeviceEvents := UPDATE.

(** The members of [ucapi.media_player.Features] and of
    [ucapi.media_player.DeviceClasses] that the entity names. *)
Inductive Features :=
| Features_ON_OFF | Features_TOGGLE | Features_PLAY_PAUSE | Features_MEDIA_TITLE.

Inductive DeviceClasses := STREAMING_BOX.

End ucapi.

(* ===================================================================== *)
(** ** Exceptions, and the effect monad of a method *)
(* ===================================================================== *)

Module Eff.

(** The exception classes the code raises or names in an [except] clause;
    all of them are subclasses of [Exception]. *)
Inductive exn := IndexError | ConnectionError | TimeoutError.

Inductive outcome (A : Type) :=
| Returned (a : A)
| Raised (e : exn).
Arguments Returned {A} a.
Arguments Raised {A} e.

Section Monad.
(** [S] is the object the method mutates. *)
Context {S : Type}.

Definition M (A : Type) : Type := S → outcome A * S.

Definition ret {A} (a : A) : M A := λ s, (Returned a, s).

Definition bind {A B} (m : M A) (k : A → M B) : M B :=
  λ s, match m s with
       | (Returned a, s') => k a s'
       | (Raised e, s') => (Raised e, s')
       end.

Definition raise {A} (e : exn) : M A := λ s, (Raised e, s).

Definition get : M S := λ s, (Returned s, s).

Definition modify (f : S → S) : M unit := λ s, (Returned tt, f s).

(** [lift o]: a pure computation that may raise, run inside a method. *)
Definition lift {A} (o : outcome A) : M A := λ s, (o, s).

(** [try: body except Exception as ex: handler ex]. *)
Definition try_except {A} (body : M A) (handler : exn → M A) : M A :=
  λ s, match body s with
       | (Returned a, s') => (Returned a, s')
       | (Raised e, s') => handler e s'
       end.
End Monad.
Arguments M : clear implicits.

End Eff.

Import Eff.

Notation "x <- m ;; k" := (Eff.bind m (λ x, k))
  (at level 100, m at next level, right associativity,
   format "'[v' x  <-  m  ;;  '/' k ']'").
Notation "m ;;; k" := (Eff.bind m (λ _, k))
  (at level 100, right associativity,
   format "'[v' m  ;;;  '/' k ']'").


(* ===================================================================== *)
(** ** Python built-ins used by the code *)
(* ===================================================================== *)

Module Py.

(** [random.choice(seq)].  The generator's draw is the argument [r]: the
    element at index [r mod len(seq)] is returned, so that every element is
    returned for some draw; an empty sequence raises [IndexError]. *)
Definition random_choice {A} (r : nat) (seq : list A) : outcome A :=
  match seq with
  | [] => Raised IndexError
  | x :: _ => Returned (default x (seq !! (r mod length seq)))
  end.

(** A [str] is a string of code points below 256.  [str.isspace] on one
    such code point: TAB..CR, FS..US, space, NEL and NBSP. *)
Definition isspace (c : ascii) : bool :=
  let n := nat_of_ascii c in
  (((9 <=? n) && (n <=? 13)) || ((28 <=? n) && (n <=? 32))
   || (n =? 133) || (n =? 160))%nat.

Fixpoint lstrip (s : string) : string :=
  match s with
  | String c s' => if isspace c then lstrip s' else s
  | EmptyString => EmptyString
  end.

Definition rstrip (s : string) : string := String.rev (lstrip (String.rev s)).

(** [s.strip()] *)
Definition strip (s : string) : string := rstrip (lstrip s).

(** [s.replace(old, new)] for one-character [old] and [new]. *)
Fixpoint replace (old new : ascii) (s : string) : string :=
  match s with
  | String c s' =>
      String (if decide (c = old) then new else c) (replace old new s')
  | EmptyString => EmptyString
  end.

(** [s[:n]] *)
Definition prefix_slice (n : nat) (s : string) : string := substring 0 n s.

(** [uuid.uuid4()] is [UUID(bytes=os.urandom(16), version=4)]: the sixteen
    random bytes read as a big-endian integer [rnd mod 2^128], with the
    RFC 4122 variant and the version number written over six of its bits. *)
Definition uuid4 (rnd : N) : N :=
  let int := (rnd mod 2 ^ 128)%N in
  let int := N.ldiff int (N.shiftl 0xc000 48) in
  let int := N.lor int (N.shiftl 0x8000 48) in
  let int := N.ldiff int (N.shiftl 0xf000 64) in
  N.lor int (N.shiftl 4 76).

Definition hex_digit (d : N) : ascii :=
  if (d <? 10)%N then ascii_of_N (48 + d) else ascii_of_N (87 + d).

(** ['%0wx' % n] for [n < 16^w]: [w] lower-case hexadecimal digits. *)
Fixpoint hex_fixed (w : nat) (n : N) : string :=
  match w with
  | O => ""
  | S w' => hex_fixed w' (n / 16)%N +:+ String (hex_digit (n mod 16)%N) ""
  end.

(** [str(u)] for a [UUID] with integer value [u]: the 32 digits in groups
    of 8-4-4-4-12. *)
Definition uuid_str (u : N) : string :=
  let hex := hex_fixed 32 u in
  substring 0 8 hex +:+ "-" +:+ substring 8 4 hex +:+ "-" +:+
  substring 12 4 hex +:+ "-" +:+ substring 16 4 hex +:+ "-" +:+
  substring 20 12 hex.

End Py.


(* ===================================================================== *)
(** ** device.py *)
(* ===================================================================== *)

Module device.
Import const ucapi.

(** The fields of [ucapi_framework.MediaPlayerAttributes] that the device
    fills in; the dataclass leaves every other field at [None]. *)
Record MediaPlayerAttributes := {
  STATE : States;
  MEDIA_TITLE : string;
  MEDIA_IMAGE_URL : string
}.

(** One call of [self.events.emit(DeviceEvents.UPDATE, entity_id, attributes)],
    [attributes] being the dict with the keys [STATE] and [MEDIA_TITLE]. *)
Record Emitted := {
  ev_event : DeviceEvents;
  ev_entity_id : string;
  ev_STATE : States;
  ev_MEDIA_TITLE : string
}.

(** The object: the fields [__init__] sets, and the calls received so far by
    the event emitter of the base class (oldest first). *)
Record DemoDevice := {
  _device_config : DemoConfig;
  _power_state : States;
  _media_title : string;
  attributes : MediaPlayerAttributes;
  events : list Emitted
}.

Definition POLL_INTERVAL : nat := 30.

Definition __init__ (device_config : DemoConfig) : DemoDevice :=
  {| _device_config := device_config;
     _power_state := OFF;
     _media_title := "";
     attributes :=
       {| STATE := OFF;
          MEDIA_TITLE := "";
          MEDIA_IMAGE_URL :=
            "https://avatars.githubusercontent.com/u/102359576?s=200&v=4" |};
     events := [] |}.

(** *** Properties *)

Definition identifier (self : DemoDevice) : string :=
  const.identifier (_device_config self).
Definition state (self : DemoDevice) : States := _power_state self.
Definition media_title (self : DemoDevice) : string := _media_title self.
Definition name (self : DemoDevice) : string :=
  const.name (_device_config self).
Definition address (self : DemoDevice) : string :=
  const.address (_device_config self).

(** [self.name if self.name else self.identifier]: an empty name is falsy. *)
Definition log_id (self : DemoDevice) : string :=
  if decide (name self ≠ "") then name self else identifier self.

(** *** Assignments to the fields of [self] *)

Definition set__power_state (v : States) (self : DemoDevice) : DemoDevice :=
  {| _device_config := _device_config self; _power_state := v;
     _media_title := _media_title self; attributes := attributes self;
     events := events self |}.

Definition set__media_title (v : string) (self : DemoDevice) : DemoDevice :=
  {| _device_config := _device_config self; _power_state := _power_state self;
     _media_title := v; attributes := attributes self;
     events := events self |}.

Definition set_attributes_STATE (v : States) (self : DemoDevice) : DemoDevice :=
  {| _device_config := _device_config self; _power_state := _power_state self;
     _media_title := _media_title self;
     attributes :=
       {| STATE := v; MEDIA_TITLE := MEDIA_TITLE (attributes self);
          MEDIA_IMAGE_URL := MEDIA_IMAGE_URL (attributes self) |};
     events := events self |}.

Definition set_attributes_MEDIA_TITLE (v : string) (self : DemoDevice)
  : DemoDevice :=
  {| _device_config := _device_config self; _power_state := _power_state self;
     _media_title := _media_title self;
     attributes :=
       {| STATE := STATE (attributes self); MEDIA_TITLE := v;
          MEDIA_IMAGE_URL := MEDIA_IMAGE_URL (attributes self) |};
     events := events self |}.

Definition append_event (e : Emitted) (self : DemoDevice) : DemoDevice :=
  {| _device_config := _device_config self; _power_state := _power_state self;
     _media_title := _media_title self; attributes := attributes self;
     events := events self ++ [e] |}.

Definition assign__power_state (v : States) : M DemoDevice unit :=
  modify (set__power_state v).
Definition assign__media_title (v : string) : M DemoDevice unit :=
  modify (set__media_title v).
Definition assign_attributes_STATE (v : States) : M DemoDevice unit :=
  modify (set_attributes_STATE v).
Definition assign_attributes_MEDIA_TITLE (v : string) : M DemoDevice unit :=
  modify (set_attributes_MEDIA_TITLE v).
Definition events_emit (e : Emitted) : M DemoDevice unit :=
  modify (append_event e).

Section Methods.
(** [TV_SHOWS] is the list imported from [const]; the methods are stated for
    any list and used at [const.TV_SHOWS].  [create_entity_id] is the helper
    of ucapi_framework that names the entity. *)
Context (TV_SHOWS : list string).
Context (create_entity_id : EntityTypes → string → string).

(** *** Helper methods *)

Definition _select_random_show (r : nat) : M DemoDevice unit :=
  self <- get ;;
  let available_shows := filter (λ show, show ≠ _media_title self) TV_SHOWS in
  choice <- lift (Py.random_choice r available_shows) ;;
  assign__media_title choice.

Definition _emit_state_update : M DemoDevice unit :=
  self <- get ;;
  events_emit
    {| ev_event := UPDATE;
       ev_entity_id := create_entity_id MEDIA_PLAYER (identifier self);
       ev_STATE := _power_state self;
       ev_MEDIA_TITLE := _media_title self |}.

Definition get_device_attributes (entity_id : string) (self : DemoDevice)
  : MediaPlayerAttributes := attributes self.

(** [self.attributes.STATE = self._power_state] and
    [self.attributes.MEDIA_TITLE = self._media_title], the two assignments
    that end every method below. *)
Definition copy_to_attributes : M DemoDevice unit :=
  (self <- get ;; assign_attributes_STATE (_power_state self)) ;;;
  (self <- get ;; assign_attributes_MEDIA_TITLE (_media_title self)).

(** *** PollingDevice implementation *)

Definition establish_connection (r : nat) : M DemoDevice unit :=
  assign__power_state ON ;;;
  _select_random_show r ;;;
  copy_to_attributes.

Definition poll_device (r : nat) : M DemoDevice unit :=
  self <- get ;;
  if decide (_power_state self ∈ [ON; PLAYING]) then
    _select_random_show r ;;;
    copy_to_attributes ;;;
    _emit_state_update
  else ret tt.

(** *** Power control *)

Definition power_on (r : nat) : M DemoDevice unit :=
  assign__power_state ON ;;;
  _select_random_show r ;;;
  copy_to_attributes.

Definition power_off : M DemoDevice unit :=
  assign__power_state OFF ;;;
  assign__media_title "" ;;;
  copy_to_attributes.

Definition power_toggle (r : nat) : M DemoDevice unit :=
  self <- get ;;
  if decide (_power_state self ∈ [ON; PLAYING; PAUSED]) then power_off
  else power_on r.

(** *** Playback control *)

Definition play_pause (r : nat) : M DemoDevice unit :=
  (self <- get ;;
   if decide (_power_state self = OFF) then
     power_on r ;;;
     assign__power_state PLAYING
   else if decide (_power_state self = PAUSED) then
     assign__power_state PLAYING ;;;
     _select_random_show r
   else if decide (_power_state self ∈ [ON; PLAYING; PAUSED]) then
     (if decide (_power_state self = PLAYING) then assign__power_state PAUSED
      else assign__power_state PLAYING) ;;;
     _select_random_show r
   else ret tt) ;;;
  copy_to_attributes.

End Methods.
End device.


(* ===================================================================== *)
(** ** media_player.py *)
(* ===================================================================== *)

Module media_player.
Import ucapi device.

Section Handler.
Context (TV_SHOWS : list string).
(** The string values of the four members of [ucapi.media_player.Commands]
    that the handler matches on.  [cmd_id] is a [str], and a value pattern
    [case media_player.Commands.ON] matches when [cmd_id] equals that
    member's value. *)
Context (Commands_ON Commands_OFF Commands_TOGGLE Commands_PLAY_PAUSE : string).

(** [DemoMediaPlayer.handle_command].  The only field of the entity it uses
    is [self._device], so the object it runs on is that [DemoDevice].  The
    [entity] argument is never read; [params] is only logged.  A [case] that
    falls out of the [match] reaches [return OK]; the wildcard [case]
    returns from inside the [match]. *)
Definition handle_command
    (cmd_id : string) (params : option (gmap string string)) (r : nat)
  : M DemoDevice StatusCodes :=
  try_except
    (returned <-
       (if decide (cmd_id = Commands_ON) then
          power_on TV_SHOWS r ;;; ret None
        else if decide (cmd_id = Commands_OFF) then
          power_off ;;; ret None
        else if decide (cmd_id = Commands_TOGGLE) then
          power_toggle TV_SHOWS r ;;; ret None
        else if decide (cmd_id = Commands_PLAY_PAUSE) then
          play_pause TV_SHOWS r ;;; ret None
        else
          ret (Some NOT_IMPLEMENTED)) ;;
     match returned with
     | Some status => ret status
     | None => ret OK
     end)
    (λ ex, ret BAD_REQUEST).

End Handler.

Definition FEATURES : list Features :=
  [Features_ON_OFF; Features_TOGGLE; Features_PLAY_PAUSE; Features_MEDIA_TITLE].

(** The [attributes] dict handed to the entity: the keys [STATE] and
    [MEDIA_TITLE]. *)
Record EntityAttributes := {
  attr_STATE : States;
  attr_MEDIA_TITLE : string
}.

(** What [DemoMediaPlayer.__init__] hands to the constructor of
    [ucapi.MediaPlayer]; the command handler is [handle_command] above, and
    [self._device] is the device the handler runs on. *)
Record DemoMediaPlayer := {
  entity_id : string;
  entity_name : string;
  entity_features : list Features;
  entity_attributes : EntityAttributes;
  entity_device_class : DeviceClasses
}.

Definition __init__
    (create_entity_id : EntityTypes → string → string)
    (config_device : const.DemoConfig) (device_instance : DemoDevice)
  : DemoMediaPlayer :=
  let entity_id :=
    create_entity_id MEDIA_PLAYER (const.identifier config_device) in
  {| entity_id := entity_id;
     entity_name := const.name config_device;
     entity_features := FEATURES;
     entity_attributes :=
       {| attr_STATE := state device_instance;
          attr_MEDIA_TITLE := media_title device_instance |};
     entity_device_class := STREAMING_BOX |}.

End media_player.

(* ===================================================================== *)
(** ** setup.py *)
(* ===================================================================== *)

Module setup.
Import const ucapi.

(** The nested dict literals of the form. *)
#[local] Unset Elimination Schemes.
Inductive json :=
| JStr (s : string)
| JDict (items : list (string * json)).
#[local] Set Elimination Schemes.

(** [ucapi.RequestUserInput(title, settings)] *)
Record RequestUserInput := {
  title : json;
  settings : list json
}.

(** [ucapi.SetupError(error_type)] *)
Record SetupError := { error_type : IntegrationSetupError }.

Definition _DEMO_INPUT_SCHEMA : RequestUserInput :=
  {| title := JDict [("en", JStr "Demo Device Setup")];
     settings :=
       [ JDict
           [ ("id", JStr "info");
             ("label", JDict [("en", JStr "Setup Demo Device")]);
             ("field",
              JDict
                [("label",
                  JDict
                    [("value",
                      JDict
                        [("en",
                          JStr
                            ("Enter an IP address to set up the demo device. "
     +:+ "This is a simulated device for testing the ucapi-framework. "
     +:+ "The IP address doesn't need to be reachable - it's just used "
     +:+ "as a placeholder identifier."))])])]) ];
         JDict
           [ ("field",
              JDict [("text", JDict [("value", JStr "192.168.1.100")])]);
             ("id", JStr "address");
             ("label", JDict [("en", JStr "IP Address")]) ] ] |}.

Definition get_manual_entry_form : RequestUserInput := _DEMO_INPUT_SCHEMA.

(** [DemoConfig | SetupError | RequestUserInput] *)
Inductive QueryResult :=
| Config (c : DemoConfig)
| Error (e : SetupError)
| Form (f : RequestUserInput).

(** [str(uuid.uuid4())[:8]] for the random bytes [rnd]. *)
Definition short_id (rnd : N) : string :=
  Py.prefix_slice 8 (Py.uuid_str (Py.uuid4 rnd)).

(** [DemoSetupFlow.query_device].  [input_values] holds the submitted form
    fields, which are strings; [rnd] is what [uuid.uuid4] draws.  The body of
    the [try] is a computation that may raise, followed by the three
    [except] clauses. *)
Definition query_device (rnd : N) (input_values : gmap string string)
  : QueryResult :=
  let address := Py.strip (default "" (input_values !! "address")) in
  if decide (address = "") then Form _DEMO_INPUT_SCHEMA
  else
    match
      (let short_id := short_id rnd in
       let identifier :=
         "demo_" +:+ Py.replace "." "_" address +:+ "_" +:+ short_id in
       let name := "Demo (" +:+ address +:+ ")" in
       Returned
         {| identifier := identifier; name := name; address := address |})
    with
    | Returned config => Config config
    | Raised ConnectionError => Error {| error_type := CONNECTION_REFUSED |}
    | Raised TimeoutError => Error {| error_type := TIMEOUT |}
    | Raised _ => Error {| error_type := CONNECTION_REFUSED |}
    end.

End setup.

(* ===================================================================== *)
(** ** The host's view of a device: sequences of calls, and the predicates
       the properties are stated with *)
(* ===================================================================== *)

Module host.
Import const ucapi device.

(** The calls the framework and the command handler make on a device. *)
Inductive Operation :=
| EstablishConnection | PollTick | PowerOn | PowerOff | PowerToggle | PlayPause.

Section Run.
Context (TV_SHOWS : list string).
Context (create_entity_id : EntityTypes → string → string).

(** One call, with the draw [r] its show selection (if any) consumes. *)
Definition run_op (op : Operation) (r : nat) : M DemoDevice unit :=
  match op with
  | EstablishConnection => establish_connection TV_SHOWS r
  | PollTick => poll_device TV_SHOWS create_entity_id r
  | PowerOn => power_on TV_SHOWS r
  | PowerOff => power_off
  | PowerToggle => power_toggle TV_SHOWS r
  | PlayPause => play_pause TV_SHOWS r
  end.

(** Calls made one after the other, each run to completion. *)
Fixpoint run_ops (calls : list (Operation * nat)) : M DemoDevice unit :=
  match calls with
  | [] => ret tt
  | (op, r) :: calls' => run_op op r ;;; run_ops calls'
  end.

End Run.

(** The pool has two different members. *)
Definition two_distinct (pool : list string) : Prop :=
  ∃ a b, a ∈ pool ∧ b ∈ pool ∧ a ≠ b.

(** The title is empty exactly when the device is off. *)
Definition title_empty_iff_off (self : DemoDevice) : Prop :=
  _media_title self = "" ↔ _power_state self = OFF.

(** The attribute snapshot shows the internal state. *)
Definition snapshot_in_sync (self : DemoDevice) : Prop :=
  STATE (attributes self) = _power_state self
  ∧ MEDIA_TITLE (attributes self) = _media_title self.

(** The device once [attributes.STATE] and [attributes.MEDIA_TITLE] have been
    assigned from the internal fields. *)
Definition copied_to_attributes (self : DemoDevice) : DemoDevice :=
  let self := set_attributes_STATE (_power_state self) self in
  set_attributes_MEDIA_TITLE (_media_title self) self.

(** The event [_emit_state_update] hands to the emitter. *)
Definition state_update
    (create_entity_id : EntityTypes → string → string) (self : DemoDevice)
  : Emitted :=
  {| ev_event := UPDATE;
     ev_entity_id := create_entity_id MEDIA_PLAYER (identifier self);
     ev_STATE := _power_state self;
     ev_MEDIA_TITLE := _media_title self |}.

(** A configuration record and an entity naming, for running the methods on
    concrete devices. *)
Definition demo_config : DemoConfig :=
  {| const.identifier := "demo_192_168_1_100_01234567";
     const.name := "Demo (192.168.1.100)";
     const.address := "192.168.1.100" |}.

Definition dotted_entity_id (entity_type : EntityTypes) (device_id : string)
  : string := "media_player." +:+ device_id.

(** A device of that configuration in a given state and showing a given
    title, snapshot included. *)
Definition device_in (st : States) (title : string) : DemoDevice :=
  copied_to_attributes
    (set__media_title title (set__power_state st (__init__ demo_config))).

(** The status the command handler reports for a device call: OK when the
    call returned, BAD_REQUEST when it raised; the device is the one the
    call left. *)
Definition reported (call : outcome unit * DemoDevice)
  : outcome StatusCodes * DemoDevice :=
  match call with
  | (Returned _, self') => (Returned OK, self')
  | (Raised _, self') => (Returned BAD_REQUEST, self')
  end.

(** The first four of the sixteen random bytes [uuid.uuid4] draws, as a
    number below [2^32]. *)
Definition leading_bytes (rnd : N) : N := ((rnd mod 2 ^ 128) / 2 ^ 96)%N.

(** The shows a selection may pick when the current title is [title]. *)
Definition available_shows (pool : list string) (title : string) : list string :=
  filter (λ show, show ≠ title) pool.

#[global] Instance Operation_eq_dec : EqDecision Operation.
Proof. solve_decision. Defined.

(** The number of polls among the calls. *)
Definition polls (calls : list (Operation * nat)) : nat :=
  length (filter (λ call, call.1 = PollTick) calls).

(** The power state a call has assigned by the time it selects a show (for
    a call that selects none, the state it leaves). *)
Definition assigned_before_selection (op : Operation) (st : States) : States :=
  match op with
  | EstablishConnection | PowerOn => ON
  | PowerOff => OFF
  | PowerToggle => if decide (st ∈ [ON; PLAYING; PAUSED]) then OFF else ON
  | PollTick => st
  | PlayPause =>
      match st with
      | OFF => ON
      | PAUSED | ON => PLAYING
      | PLAYING => PAUSED
      | UNAVAILABLE | UNKNOWN | STANDBY | BUFFERING => st
      end
  end.

(** The power state one press of play/pause leads to. *)
Definition pressed (st : States) : States :=
  match st with
  | PLAYING => PAUSED
  | OFF | ON | PAUSED => PLAYING
  | UNAVAILABLE | UNKNOWN | STANDBY | BUFFERING => st
  end.

(** [n] presses of play/pause, one draw each. *)
Definition presses (draws : list nat) : list (Operation * nat) :=
  (λ r, (PlayPause, r)) <$> draws.

(** [n] polls, one draw each. *)
Definition ticks (draws : list nat) : list (Operation * nat) :=
  (λ r, (PollTick, r)) <$> draws.

(** No two neighbours of the list are equal. *)
Fixpoint adjacent_distinct (titles : list string) : Prop :=
  match titles with
  | a :: (b :: _) as rest => a ≠ b ∧ adjacent_distinct rest
  | _ => True
  end.

Section Commands.
Context (TV_SHOWS : list string).
Context (Commands_ON Commands_OFF Commands_TOGGLE Commands_PLAY_PAUSE : string).

(** Commands delivered one after the other to the handler (no parameters),
    each with the draw its show selection consumes; the statuses it returned,
    first command first. *)
Fixpoint run_commands (commands : list (string * nat))
  : M DemoDevice (list StatusCodes) :=
  match commands with
  | [] => ret []
  | (cmd_id, r) :: commands' =>
      status <- media_player.handle_command TV_SHOWS
                  Commands_ON Commands_OFF Commands_TOGGLE Commands_PLAY_PAUSE
                  cmd_id None r ;;
      statuses <- run_commands commands' ;;
      ret (status :: statuses)
  end.

End Commands.

(** An emitted event is an UPDATE of the entity [entity], in the state ON or
    PLAYING and with a title of the show list of the program. *)
Definition poll_event (entity : string) (e : Emitted) : Prop :=
  ev_event e = UPDATE ∧ ev_entity_id e = entity
  ∧ ev_STATE e ∈ [ON; PLAYING] ∧ ev_MEDIA_TITLE e ∈ TV_SHOWS.

(** A string made of white space only. *)
Fixpoint all_space (s : string) : bool :=
  match s with
  | String c s' => Py.isspace c && all_space s'
  | EmptyString => true
  end.

(** The characters of a string. *)
Fixpoint chars (s : string) : list ascii :=
  match s with
  | String c s' => c :: chars s'
  | EmptyString => []
  end.

(** A lower-case hexadecimal digit. *)
Definition is_hex_digit (c : ascii) : bool :=
  let n := nat_of_ascii c in
  (((48 <=? n) && (n <=? 57)) || ((97 <=? n) && (n <=? 102)))%nat.

End host.

(* ===================================================================== *)
(** ** Facts about the built-ins *)
(* ===================================================================== *)

Section BuiltinFacts.

Lemma random_choice_empty {A} (r : nat) :
  Py.random_choice r (@nil A) = Raised IndexError.
Proof. reflexivity. Qed.

Lemma random_choice_returns {A} (r : nat) (seq : list A) :
  seq ≠ [] → ∃ x, Py.random_choice r seq = Returned x ∧ x ∈ seq.
Proof.
  destruct seq as [|a seq']; [done|]. intros _.
  unfold Py.random_choice.
  destruct ((a :: seq') !! (r mod length (a :: seq'))) as [x|] eqn:Hx.
  - exists x. split; [done|]. by eapply list_elem_of_lookup_2.
  - exists a. split; [done|]. by left.
Qed.

Lemma random_choice_elem {A} (r : nat) (seq : list A) (x : A) :
  Py.random_choice r seq = Returned x → x ∈ seq.
Proof.
  destruct seq as [|a seq']; [done|]. intros H.
  destruct (random_choice_returns r (a :: seq')) as (y & Hy & Hin); [done|].
  congruence.
Qed.

Lemma random_choice_raises {A} (r : nat) (seq : list A) (e : exn) :
  Py.random_choice r seq = Raised e → seq = [] ∧ e = IndexError.
Proof. destruct seq; simpl; [intros [= <-]; done | done]. Qed.

(** Every member of the sequence is the choice of some draw: the draw
    argument restricts nothing. *)
Lemma random_choice_any {A} (seq : list A) (x : A) :
  x ∈ seq → ∃ r, Py.random_choice r seq = Returned x.
Proof.
  intros Hin. apply list_elem_of_lookup_1 in Hin as [i Hi].
  exists i. destruct seq as [|a seq']; [done|].
  unfold Py.random_choice.
  rewrite Nat.mod_small by (by eapply lookup_lt_Some).
  by rewrite Hi.
Qed.

(** [try: ... except Exception] with a handler that returns lets no
    exception through. *)
Lemma try_except_returns {S A} (body : M S A) (handler : exn → M S A) (s : S) :
  (∀ e s', ∃ a s'', handler e s' = (Returned a, s'')) →
  ∃ a s', try_except body handler s = (Returned a, s').
Proof.
  intros Hhandler. unfold try_except.
  destruct (body s) as [[a|e] s']; [by exists a, s'|]. apply Hhandler.
Qed.

(** Strings: concatenation and slices. *)

Lemma length_append (a b : string) :
  String.length (a +:+ b) = String.length a + String.length b.
Proof.
  induction a as [|c a IH]; [done|].
  change (String c a +:+ b) with (String c (a +:+ b)). cbn. by rewrite IH.
Qed.

Lemma length_hex_fixed (w : nat) (n : N) : String.length (Py.hex_fixed w n) = w.
Proof.
  revert n. induction w as [|w IH]; intros n; cbn; [done|].
  rewrite length_append, IH. cbn. lia.
Qed.

Lemma substring_0_append (n : nat) (a b : string) :
  String.length a = n → substring 0 n (a +:+ b) = a.
Proof.
  intros <-. induction a as [|c a IH].
  - by destruct b.
  - change (String c a +:+ b) with (String c (a +:+ b)). cbn. by rewrite IH.
Qed.

Lemma append_assoc (a b c : string) : (a +:+ b) +:+ c = a +:+ (b +:+ c).
Proof.
  induction a as [|x a IH]; [done|].
  change ((String x a +:+ b) +:+ c) with (String x ((a +:+ b) +:+ c)).
  by rewrite IH.
Qed.

Lemma append_empty_r (a : string) : a +:+ "" = a.
Proof.
  induction a as [|x a IH]; [done|].
  change (String x a +:+ "") with (String x (a +:+ "")). by rewrite IH.
Qed.

Lemma hex_fixed_split (w k : nat) (n : N) :
  Py.hex_fixed (w + k) n
  = Py.hex_fixed w (n / 16 ^ N.of_nat k)%N +:+ Py.hex_fixed k n.
Proof.
  revert n. induction k as [|k IH]; intros n.
  - rewrite Nat.add_0_r. cbn [Py.hex_fixed].
    change (16 ^ N.of_nat 0)%N with 1%N.
    by rewrite N.div_1_r, append_empty_r.
  - rewrite Nat.add_succ_r. cbn [Py.hex_fixed]. rewrite IH.
    rewrite N.Div0.div_div, Nat2N.inj_succ, N.pow_succ_r'.
    by rewrite append_assoc.
Qed.

Lemma hex_digit_inj (a b : N) :
  (a < 16)%N → (b < 16)%N → Py.hex_digit a = Py.hex_digit b → a = b.
Proof.
  intros Ha Hb Heq. apply (f_equal N_of_ascii) in Heq. revert Heq.
  unfold Py.hex_digit.
  destruct (N.ltb_spec a 10), (N.ltb_spec b 10);
    rewrite !N_ascii_embedding by lia; lia.
Qed.

Lemma append_last_inj (a b : string) (x y : ascii) :
  a +:+ String x "" = b +:+ String y "" → a = b ∧ x = y.
Proof.
  revert b. induction a as [|c a IH]; intros [|d b].
  - by intros [= ->].
  - intros [= -> H]. by destruct b.
  - intros [= -> H]. by destruct a.
  - intros [= -> H]. apply IH in H as [-> ->]. done.
Qed.

Lemma hex_fixed_inj (w : nat) (a b : N) :
  Py.hex_fixed w a = Py.hex_fixed w b
  ↔ (a mod 16 ^ N.of_nat w = b mod 16 ^ N.of_nat w)%N.
Proof.
  revert a b. induction w as [|w IH]; intros a b.
  - cbn. by rewrite !N.mod_1_r.
  - cbn [Py.hex_fixed]. rewrite Nat2N.inj_succ, N.pow_succ_r'.
    rewrite !N.Div0.mod_mul_r. split.
    + intros H. apply append_last_inj in H as [H1 H2].
      apply IH in H1. apply hex_digit_inj in H2; [|by apply N.mod_lt..].
      by rewrite H1, H2.
    + intros H.
      assert (a mod 16 = b mod 16
              ∧ (a / 16) mod 16 ^ N.of_nat w = (b / 16) mod 16 ^ N.of_nat w)%N
        as [H1 H2].
      { pose proof (N.mod_lt a 16 ltac:(done)) as Ha.
        pose proof (N.mod_lt b 16 ltac:(done)) as Hb.
        revert H Ha Hb.
        generalize ((a / 16) mod 16 ^ N.of_nat w)%N, (a mod 16)%N,
          ((b / 16) mod 16 ^ N.of_nat w)%N, (b mod 16)%N.
        intros. lia. }
      apply IH in H2. by rewrite H1, H2.
Qed.

Lemma uuid4_top_bits (rnd : N) :
  (Py.uuid4 rnd / 2 ^ 96 = (rnd mod 2 ^ 128) / 2 ^ 96)%N.
Proof.
  unfold Py.uuid4. cbv zeta.
  rewrite <- !N.shiftr_div_pow2.
  rewrite N.shiftr_lor, N.shiftr_ldiff, N.shiftr_lor, N.shiftr_ldiff.
  change (N.shiftr (N.shiftl 4 76) 96) with 0%N.
  change (N.shiftr (N.shiftl 61440 64) 96) with 0%N.
  change (N.shiftr (N.shiftl 32768 48) 96) with 0%N.
  change (N.shiftr (N.shiftl 49152 48) 96) with 0%N.
  by rewrite !N.lor_0_r, !N.ldiff_0_r.
Qed.

(** The eight characters kept of the UUID are the hexadecimal digits of the
    first four random bytes: the version and variant bits lie further down. *)
Lemma short_id_leading_bytes (rnd : N) :
  setup.short_id rnd = Py.hex_fixed 8 (host.leading_bytes rnd).
Proof.
  unfold setup.short_id, Py.prefix_slice, Py.uuid_str, host.leading_bytes.
  cbv zeta. rewrite <- uuid4_top_bits.
  set (u := Py.uuid4 rnd).
  assert (substring 0 8 (Py.hex_fixed 32 u) = Py.hex_fixed 8 (u / 2 ^ 96)%N)
    as ->.
  { change 32 with (8 + 24). rewrite hex_fixed_split.
    change (16 ^ N.of_nat 24)%N with (2 ^ 96)%N.
    apply substring_0_append, length_hex_fixed. }
  apply substring_0_append, length_hex_fixed.
Qed.

Lemma leading_bytes_bound (rnd : N) : (host.leading_bytes rnd < 2 ^ 32)%N.
Proof.
  unfold host.leading_bytes. apply N.Div0.div_lt_upper_bound.
  change (2 ^ 96 * 2 ^ 32)%N with (2 ^ 128)%N. by apply N.mod_lt.
Qed.

Lemma short_id_eq_iff (rnd1 rnd2 : N) :
  setup.short_id rnd1 = setup.short_id rnd2
  ↔ host.leading_bytes rnd1 = host.leading_bytes rnd2.
Proof.
  rewrite !short_id_leading_bytes, hex_fixed_inj.
  change (16 ^ N.of_nat 8)%N with (2 ^ 32)%N.
  by rewrite !N.mod_small by apply leading_bytes_bound.
Qed.

End BuiltinFacts.

Example strip_address : Py.strip "  192.168.1.100 " = "192.168.1.100".
Proof. vm_compute. reflexivity. Qed.

Example strip_blank : Py.strip (String "009" (String "160" " ")) = "".
Proof. vm_compute. reflexivity. Qed.

Example uuid_str_digits :
  Py.uuid_str (Py.uuid4 0x0123456789abcdef0123456789abcdef)
  = "01234567-89ab-4def-8123-456789abcdef".
Proof. vm_compute. reflexivity. Qed.

(* ===================================================================== *)
(** ** Show selection *)
(* ===================================================================== *)

Import const ucapi device host.

(** Unfold a method down to the state it returns. *)
Ltac run_method :=
  unfold play_pause, power_toggle, power_on, power_off, poll_device,
    establish_connection, copy_to_attributes, _emit_state_update,
    _select_random_show, events_emit, assign__power_state,
    assign__media_title, assign_attributes_STATE,
    assign_attributes_MEDIA_TITLE, Eff.bind, Eff.ret, Eff.get, Eff.modify,
    Eff.lift, Eff.try_except;
  cbn.

(** A closed decidable proposition, by evaluating its decision. *)
Ltac by_evaluation := refine (bool_decide_unpack _ _); vm_compute; exact I.

(** Settle the tests on the state ([state == OFF], [state in (ON, PLAYING)])
    once the state is known. *)
Ltac settle_test :=
  match goal with
  | |- context [decide ?P] =>
      let b := eval vm_compute in (bool_decide P) in
      match b with
      | true => rewrite (decide_True (P := P)) by by_evaluation
      | false => rewrite (decide_False (P := P)) by by_evaluation
      end
  end.

Ltac settle_tests := repeat settle_test; cbn.

(** Read the fields of a device built from the field updates. *)
Ltac read_fields :=
  cbn [_device_config _power_state _media_title attributes events
       STATE MEDIA_TITLE MEDIA_IMAGE_URL identifier
       copied_to_attributes set__power_state set__media_title
       set_attributes_STATE set_attributes_MEDIA_TITLE append_event
       state_update ev_event ev_entity_id ev_STATE ev_MEDIA_TITLE fst snd]
    in *.

Section Selection.
Context (pool : list string).

Lemma available_shows_spec (title show : string) :
  show ∈ available_shows pool title ↔ show ∈ pool ∧ show ≠ title.
Proof. unfold available_shows. rewrite list_elem_of_filter. tauto. Qed.

Lemma available_shows_nonempty (title : string) :
  two_distinct pool → available_shows pool title ≠ [].
Proof.
  intros (a & b & Ha & Hb & Hab) Hnil.
  destruct (decide (a = title)) as [->|Hne].
  - assert (b ∈ available_shows pool title) as Hin
      by (apply available_shows_spec; split; [done|congruence]).
    rewrite Hnil in Hin. by apply not_elem_of_nil in Hin.
  - assert (a ∈ available_shows pool title) as Hin
      by (by apply available_shows_spec).
    rewrite Hnil in Hin. by apply not_elem_of_nil in Hin.
Qed.

(** With two different shows in the pool, a choice among the available ones
    returns, and what it returns is a pool member other than [title]. *)
Lemma choice_available (r : nat) (title : string) :
  two_distinct pool →
  ∃ show, Py.random_choice r (available_shows pool title) = Returned show
          ∧ show ∈ pool ∧ show ≠ title.
Proof.
  intros Hpool.
  destruct (random_choice_returns r (available_shows pool title))
    as (show & Hshow & Hin); [by apply available_shows_nonempty|].
  apply available_shows_spec in Hin as [??]. by exists show.
Qed.



End Selection.

Lemma TV_SHOWS_two_distinct : two_distinct TV_SHOWS.
Proof.
  exists "Breaking Bad", "The Wire".
  split; [|split]; [unfold TV_SHOWS; set_solver.. | done].
Qed.

Lemma TV_SHOWS_NoDup : NoDup TV_SHOWS.
Proof. by_evaluation. Qed.


Lemma TV_SHOWS_nonempty_titles (show : string) : show ∈ TV_SHOWS → show ≠ "".
Proof.
  assert ("" ∉ TV_SHOWS) as Hnot by by_evaluation.
  by intros Hin ->.
Qed.

(* ===================================================================== *)
(** ** What each method returns, by the outcome of its show selection *)
(* ===================================================================== *)

Section MethodRuns.
Context (pool : list string).
Context (create_entity_id : EntityTypes → string → string).

Lemma power_on_run (r : nat) (self : DemoDevice) :
  power_on pool r self =
  match Py.random_choice r (available_shows pool (_media_title self)) with
  | Returned show =>
      (Returned tt,
       copied_to_attributes (set__media_title show (set__power_state ON self)))
  | Raised e => (Raised e, set__power_state ON self)
  end.
Proof.
  run_method. unfold available_shows. by destruct (Py.random_choice r _).
Qed.

Lemma establish_connection_run (r : nat) (self : DemoDevice) :
  establish_connection pool r self = power_on pool r self.
Proof. reflexivity. Qed.

Lemma power_off_run (self : DemoDevice) :
  power_off self =
  (Returned tt,
   copied_to_attributes (set__media_title "" (set__power_state OFF self))).
Proof. reflexivity. Qed.

Lemma power_toggle_run (r : nat) (self : DemoDevice) :
  power_toggle pool r self =
  if decide (_power_state self ∈ [ON; PLAYING; PAUSED]) then power_off self
  else power_on pool r self.
Proof. run_method. by case_decide. Qed.

Lemma poll_device_run (r : nat) (self : DemoDevice) :
  poll_device pool create_entity_id r self =
  if decide (_power_state self ∈ [ON; PLAYING]) then
    match Py.random_choice r (available_shows pool (_media_title self)) with
    | Returned show =>
        let self' := copied_to_attributes (set__media_title show self) in
        (Returned tt, append_event (state_update create_entity_id self') self')
    | Raised e => (Raised e, self)
    end
  else (Returned tt, self).
Proof.
  run_method. unfold available_shows. case_decide; [|done].
  by destruct (Py.random_choice r _).
Qed.

(** The state [play_pause] assigns before it selects a show, for the states
    in which it selects one. *)
Lemma play_pause_run (r : nat) (self : DemoDevice) :
  play_pause pool r self =
  let choice :=
    Py.random_choice r (available_shows pool (_media_title self)) in
  match _power_state self with
  | OFF =>
      match choice with
      | Returned show =>
          (Returned tt,
           copied_to_attributes
             (set__power_state PLAYING
                (copied_to_attributes
                   (set__media_title show (set__power_state ON self)))))
      | Raised e => (Raised e, set__power_state ON self)
      end
  | PAUSED | ON =>
      match choice with
      | Returned show =>
          (Returned tt,
           copied_to_attributes
             (set__media_title show (set__power_state PLAYING self)))
      | Raised e => (Raised e, set__power_state PLAYING self)
      end
  | PLAYING =>
      match choice with
      | Returned show =>
          (Returned tt,
           copied_to_attributes
             (set__media_title show (set__power_state PAUSED self)))
      | Raised e => (Raised e, set__power_state PAUSED self)
      end
  | UNAVAILABLE | UNKNOWN | STANDBY | BUFFERING =>
      (Returned tt, copied_to_attributes self)
  end.
Proof.
  destruct self as [config st title attrs evs].
  destruct st; run_method; unfold available_shows; settle_tests;
    first [done | by destruct (Py.random_choice r _)].
Qed.

End MethodRuns.

(* ===================================================================== *)
(** ** C2: show selection *)
(* ===================================================================== *)

(** A pool without repetition and with more than one member has two
    different members. *)
Lemma two_distinct_NoDup (pool : list string) :
  NoDup pool → 1 < length pool → two_distinct pool.
Proof.
  destruct pool as [|a [|b pool]]; cbn; [lia..|]. intros Hnodup _.
  exists a, b. split; [by left|]. split; [by right; left|].
  apply NoDup_cons in Hnodup as [Ha _]. intros ->. apply Ha. by left.
Qed.



Example select_after_Fargo :
  _select_random_show TV_SHOWS 17 (device_in PLAYING "Fargo")
  = (Returned tt,
     set__media_title "True Detective" (device_in PLAYING "Fargo")).
Proof. vm_compute. reflexivity. Qed.

(* ===================================================================== *)
(** ** C1 and C8: play_pause *)
(* ===================================================================== *)

(** C1, what the code does: from PLAYING, [play_pause] returns with the
    state PAUSED and with a newly selected title, a pool member that differs
    from the title before the call.  The claim (state PAUSED, title
    unchanged) holds for the state only: the call of [_select_random_show]
    in the last branch follows the inner [if] instead of sitting in its
    [else], so it also runs on the way to PAUSED, against the comment of
    that branch (pick new show when resuming). *)
Theorem play_pause_from_PLAYING_selects_title (r : nat) (self : DemoDevice) :
  _power_state self = PLAYING →
  ∃ self', play_pause TV_SHOWS r self = (Returned tt, self')
           ∧ _power_state self' = PAUSED
           ∧ _media_title self' ∈ TV_SHOWS
           ∧ _media_title self' ≠ _media_title self.
Proof.
  intros Hst. rewrite play_pause_run, Hst. cbv zeta.
  destruct (choice_available TV_SHOWS r (_media_title self)
              TV_SHOWS_two_distinct) as (show & -> & Hin & Hne).
  eexists. split; [reflexivity|]. done.
Qed.

Lemma play_pause_from_PLAYING_selects_title_witness :
  _power_state (device_in PLAYING "Fargo") = PLAYING
  ∧ ∃ self', play_pause TV_SHOWS 0 (device_in PLAYING "Fargo")
               = (Returned tt, self')
             ∧ _power_state self' = PAUSED
             ∧ _media_title self' ∈ TV_SHOWS
             ∧ _media_title self' ≠ "Fargo".
Proof.
  split; [reflexivity|].
  apply (play_pause_from_PLAYING_selects_title 0 (device_in PLAYING "Fargo")).
  reflexivity.
Defined.

Example pause_while_playing_Fargo :
  play_pause TV_SHOWS 0 (device_in PLAYING "Fargo")
  = (Returned tt, device_in PAUSED "Breaking Bad").
Proof. vm_compute. reflexivity. Qed.

(** C8: from OFF, [play_pause] returns; it runs [power_on] and then assigns
    PLAYING, so that the state it leaves is PLAYING and the title is a
    non-empty member of the show pool. *)
Theorem play_pause_from_OFF (r : nat) (self : DemoDevice) :
  _power_state self = OFF →
  ∃ on self',
    power_on TV_SHOWS r self = (Returned tt, on)
    ∧ play_pause TV_SHOWS r self = (Returned tt, self')
    ∧ self' = copied_to_attributes (set__power_state PLAYING on)
    ∧ _power_state self' = PLAYING
    ∧ _media_title self' ∈ TV_SHOWS
    ∧ _media_title self' ≠ "".
Proof.
  intros Hst. rewrite play_pause_run, power_on_run, Hst. cbv zeta.
  destruct (choice_available TV_SHOWS r (_media_title self)
              TV_SHOWS_two_distinct) as (show & -> & Hin & Hne).
  do 2 eexists. do 3 (split; [reflexivity|]). cbn.
  split; [done|]. split; [done|]. by apply TV_SHOWS_nonempty_titles.
Qed.

Lemma play_pause_from_OFF_witness :
  ∃ on self',
    power_on TV_SHOWS 5 (__init__ demo_config) = (Returned tt, on)
    ∧ play_pause TV_SHOWS 5 (__init__ demo_config) = (Returned tt, self')
    ∧ self' = copied_to_attributes (set__power_state PLAYING on)
    ∧ _power_state self' = PLAYING
    ∧ _media_title self' ∈ TV_SHOWS
    ∧ _media_title self' ≠ "".
Proof.
  apply (play_pause_from_OFF 5 (__init__ demo_config)). reflexivity.
Defined.

Example press_play_on_new_device :
  play_pause TV_SHOWS 5 (__init__ demo_config)
  = (Returned tt, device_in PLAYING "The Office").
Proof. vm_compute. reflexivity. Qed.

(* ===================================================================== *)
(** ** Sequences of calls on the device of the program *)
(* ===================================================================== *)

Section Calls.
Context (create_entity_id : EntityTypes → string → string).

Abbreviation run_op := (host.run_op TV_SHOWS create_entity_id).
Abbreviation run_ops := (host.run_ops TV_SHOWS create_entity_id).

(** Case analysis on a call and on the state it starts from, down to the
    device it returns; [show] is the selected show. *)
Ltac by_call op r self show Hin Hne :=
  let Hshow := fresh "Hshow" in
  let st := fresh "st" in
  destruct self as [? st ? ? ?];
  match goal with
  | |- context [Build_DemoDevice _ _ ?title _ _] =>
      destruct (choice_available TV_SHOWS r title TV_SHOWS_two_distinct)
        as (show & Hshow & Hin & Hne)
  end;
  destruct op; cbn [host.run_op];
  rewrite ?establish_connection_run, ?power_toggle_run, ?poll_device_run,
    ?play_pause_run;
  cbv zeta; cbn [_power_state _media_title];
  destruct st; repeat settle_test;
  rewrite ?power_on_run, ?power_off_run;
  cbn [_power_state _media_title]; rewrite ?Hshow; clear Hshow.

(** With the show list of the program no call raises. *)
Lemma run_op_returns (op : Operation) (r : nat) (self : DemoDevice) :
  ∃ self', run_op op r self = (Returned tt, self').
Proof. by_call op r self show Hin Hne; by eexists. Qed.

(** A property that every call keeps holds after every sequence of calls,
    and every sequence of calls returns. *)
Lemma run_ops_preserves (P : DemoDevice → Prop) :
  (∀ op r self, P self →
     ∃ self', run_op op r self = (Returned tt, self') ∧ P self') →
  ∀ calls self, P self →
    ∃ self', run_ops calls self = (Returned tt, self') ∧ P self'.
Proof.
  intros Hstep calls.
  induction calls as [|[op r] calls IH]; intros self HP; cbn.
  - by exists self.
  - destruct (Hstep op r self HP) as (mid & Hmid & HPmid).
    unfold Eff.bind. rewrite Hmid. by apply IH.
Qed.

(** The three properties of the reachable states, call by call. *)

Lemma run_op_state_range (op : Operation) (r : nat) (self : DemoDevice) :
  _power_state self ∈ [OFF; ON; PLAYING; PAUSED] →
  ∃ self', run_op op r self = (Returned tt, self')
           ∧ _power_state self' ∈ [OFF; ON; PLAYING; PAUSED].
Proof.
  intros Hst. by_call op r self show Hin Hne;
    (eexists; split; [reflexivity|]); read_fields;
    first [by_evaluation | exfalso; revert Hst; by_evaluation].
Qed.

Lemma run_op_title_empty_iff_off
    (op : Operation) (r : nat) (self : DemoDevice) :
  title_empty_iff_off self →
  ∃ self', run_op op r self = (Returned tt, self')
           ∧ title_empty_iff_off self'.
Proof.
  intros Hinv. by_call op r self show Hin Hne;
    apply TV_SHOWS_nonempty_titles in Hin;
    (eexists; split; [reflexivity|]);
    unfold title_empty_iff_off in *; read_fields;
    first [exact Hinv | by split].
Qed.

Lemma run_op_snapshot_in_sync (op : Operation) (r : nat) (self : DemoDevice) :
  op ≠ PollTick ∨ _power_state self ∈ [ON; PLAYING] ∨ snapshot_in_sync self →
  ∃ self', run_op op r self = (Returned tt, self')
           ∧ snapshot_in_sync self'.
Proof.
  intros Hcase. by_call op r self show Hin Hne;
    (eexists; split; [reflexivity|]);
    unfold snapshot_in_sync in *; read_fields;
    try (by split);
    destruct Hcase as [?|[Hst|?]]; try done;
    exfalso; revert Hst; by_evaluation.
Qed.

(* --------------------------------------------------------------------- *)
(** *** C3: the title is empty exactly when the device is off *)

(** C3: from the initial state (OFF, empty title), every sequence of calls of
    establish_connection, poll_device, power_on, power_off, power_toggle and
    play_pause returns, and leaves the device in one of the states OFF, ON,
    PLAYING, PAUSED with a title that is empty if and only if the state is
    OFF. *)
Theorem media_title_empty_iff_off
    (config : DemoConfig) (calls : list (Operation * nat)) :
  ∃ self, run_ops calls (__init__ config) = (Returned tt, self)
          ∧ (_media_title self = "" ↔ _power_state self = OFF)
          ∧ _power_state self ∈ [OFF; ON; PLAYING; PAUSED].
Proof.
  destruct (run_ops_preserves
              (λ self, title_empty_iff_off self
                       ∧ _power_state self ∈ [OFF; ON; PLAYING; PAUSED]))
    with (calls := calls) (self := __init__ config)
    as (self & Hrun & Htitle & Hstate).
  - intros op r self [Htitle Hstate].
    destruct (run_op_title_empty_iff_off op r self Htitle) as (s1 & H1 & ?).
    destruct (run_op_state_range op r self Hstate) as (s2 & H2 & ?).
    exists s1. split; [done|]. split; [done|]. congruence.
  - split; [done|]. by_evaluation.
  - by exists self.
Qed.

Example calls_from_new_device :
  run_ops [(EstablishConnection, 3); (PlayPause, 8); (PollTick, 1);
           (PlayPause, 4); (PollTick, 6); (PowerToggle, 0); (PollTick, 2)]
    (__init__ demo_config)
  = (Returned tt,
     append_event
       {| ev_event := UPDATE;
          ev_entity_id := create_entity_id MEDIA_PLAYER
                            "demo_192_168_1_100_01234567";
          ev_STATE := PLAYING;
          ev_MEDIA_TITLE := "The Wire" |}
       (__init__ demo_config)).
Proof. vm_compute. reflexivity. Qed.

(* --------------------------------------------------------------------- *)
(** *** C9: the attribute snapshot follows the internal state *)

(** C9: establish_connection, power_on, power_off, power_toggle and
    play_pause return with [attributes.STATE] and [attributes.MEDIA_TITLE]
    equal to the internal state and title, whatever the device was before;
    so does poll_device when it polls (ON or PLAYING); when it does not it
    changes nothing, so a snapshot that was in sync stays in sync.  Hence
    after every sequence of calls on a new device the snapshot shows the
    internal state. *)
Theorem snapshot_follows_state :
  (∀ op r self,
     op ≠ PollTick ∨ _power_state self ∈ [ON; PLAYING] ∨ snapshot_in_sync self →
     ∃ self', run_op op r self = (Returned tt, self')
              ∧ STATE (attributes self') = _power_state self'
              ∧ MEDIA_TITLE (attributes self') = _media_title self')
  ∧ (∀ config calls,
       ∃ self, run_ops calls (__init__ config) = (Returned tt, self)
               ∧ STATE (attributes self) = _power_state self
               ∧ MEDIA_TITLE (attributes self) = _media_title self).
Proof.
  split.
  - apply run_op_snapshot_in_sync.
  - intros config calls.
    apply (run_ops_preserves snapshot_in_sync); [|done].
    intros op r self Hsync. apply run_op_snapshot_in_sync. auto.
Qed.

(* --------------------------------------------------------------------- *)
(** *** C4: the poll *)

(** C4: in the states OFF and PAUSED, [poll_device] returns the device as it
    was: no field changes and nothing is emitted.  In the states ON and
    PLAYING it returns with a newly selected title (a pool member other than
    the previous title), the same state, the snapshot updated, and exactly
    one more emitted event, an UPDATE of the device's entity carrying that
    state and title. *)
Theorem poll_device_effect (r : nat) (self : DemoDevice) :
  (_power_state self = OFF ∨ _power_state self = PAUSED →
   poll_device TV_SHOWS create_entity_id r self = (Returned tt, self))
  ∧ (_power_state self = ON ∨ _power_state self = PLAYING →
     ∃ show self',
       poll_device TV_SHOWS create_entity_id r self = (Returned tt, self')
       ∧ show ∈ TV_SHOWS ∧ show ≠ _media_title self
       ∧ _media_title self' = show
       ∧ _power_state self' = _power_state self
       ∧ attributes self'
         = {| STATE := _power_state self; MEDIA_TITLE := show;
              MEDIA_IMAGE_URL := MEDIA_IMAGE_URL (attributes self) |}
       ∧ events self'
         = (events self
            ++ [ {| ev_event := UPDATE;
                    ev_entity_id :=
                      create_entity_id MEDIA_PLAYER (identifier self);
                    ev_STATE := _power_state self;
                    ev_MEDIA_TITLE := show |} ])%list).
Proof.
  rewrite poll_device_run. split.
  - intros [Hst|Hst]; rewrite Hst; by settle_test.
  - intros Hst.
    destruct (choice_available TV_SHOWS r (_media_title self)
                TV_SHOWS_two_distinct) as (show & -> & Hin & Hne).
    exists show. eexists.
    split; [destruct Hst as [Hst|Hst]; rewrite Hst; settle_test; reflexivity|].
    done.
Qed.

Example poll_while_playing_Fargo :
  poll_device TV_SHOWS create_entity_id 7 (device_in PLAYING "Fargo")
  = (Returned tt,
     append_event
       {| ev_event := UPDATE;
          ev_entity_id :=
            create_entity_id MEDIA_PLAYER "demo_192_168_1_100_01234567";
          ev_STATE := PLAYING;
          ev_MEDIA_TITLE := "Seinfeld" |}
       (device_in PLAYING "Seinfeld")).
Proof. vm_compute. reflexivity. Qed.

End Calls.

Lemma snapshot_follows_state_witness :
  ∃ self',
    host.run_op TV_SHOWS dotted_entity_id PlayPause 0
      (set__media_title "Fargo" (__init__ demo_config))
    = (Returned tt, self')
    ∧ STATE (attributes self') = _power_state self'
    ∧ MEDIA_TITLE (attributes self') = _media_title self'.
Proof.
  apply (proj1 (snapshot_follows_state dotted_entity_id)). left. discriminate.
Defined.

Lemma poll_device_effect_witness :
  poll_device TV_SHOWS dotted_entity_id 7 (device_in PAUSED "Fargo")
  = (Returned tt, device_in PAUSED "Fargo")
  ∧ ∃ show self',
      poll_device TV_SHOWS dotted_entity_id 7 (device_in PLAYING "Fargo")
      = (Returned tt, self')
      ∧ show ∈ TV_SHOWS ∧ show ≠ "Fargo"
      ∧ _media_title self' = show
      ∧ _power_state self' = PLAYING
      ∧ attributes self'
        = {| STATE := PLAYING; MEDIA_TITLE := show;
             MEDIA_IMAGE_URL :=
               MEDIA_IMAGE_URL (attributes (device_in PLAYING "Fargo")) |}
      ∧ events self'
        = [ {| ev_event := UPDATE;
               ev_entity_id := "media_player.demo_192_168_1_100_01234567";
               ev_STATE := PLAYING;
               ev_MEDIA_TITLE := show |} ].
Proof.
  split.
  - apply (proj1 (poll_device_effect dotted_entity_id 7
                    (device_in PAUSED "Fargo"))).
    right. reflexivity.
  - apply (proj2 (poll_device_effect dotted_entity_id 7
                    (device_in PLAYING "Fargo"))).
    right. reflexivity.
Defined.

(* ===================================================================== *)
(** ** C10: the image URL *)
(* ===================================================================== *)

Section ImageUrl.
Context (pool : list string).
Context (create_entity_id : EntityTypes → string → string).

Lemma run_op_keeps_image_url (op : Operation) (r : nat) (self : DemoDevice) :
  MEDIA_IMAGE_URL (attributes (host.run_op pool create_entity_id op r self).2)
  = MEDIA_IMAGE_URL (attributes self).
Proof.
  destruct self as [config st title attrs evs].
  destruct op; cbn [host.run_op];
    rewrite ?establish_connection_run, ?power_toggle_run, ?poll_device_run,
      ?play_pause_run;
    cbv zeta; cbn [_power_state _media_title];
    destruct st; repeat settle_test;
    rewrite ?power_on_run, ?power_off_run;
    cbn [_power_state _media_title];
    first [done | by destruct (Py.random_choice r _)].
Qed.

Lemma run_ops_keeps_image_url
    (calls : list (Operation * nat)) (self : DemoDevice) :
  MEDIA_IMAGE_URL (attributes (host.run_ops pool create_entity_id calls self).2)
  = MEDIA_IMAGE_URL (attributes self).
Proof.
  revert self. induction calls as [|[op r] calls IH]; intros self; [done|].
  cbn [host.run_ops]. unfold Eff.bind.
  pose proof (run_op_keeps_image_url op r self) as Hop.
  destruct (host.run_op pool create_entity_id op r self) as [[[]|e] mid];
    cbn [snd] in *; [by rewrite IH | done].
Qed.

End ImageUrl.

(** C10: [MEDIA_IMAGE_URL] is set by [__init__], and no call of
    establish_connection, poll_device, power_on, power_off, power_toggle or
    play_pause changes it, whether the call returns or raises: after every
    sequence of calls on a new device it still has the value [__init__]
    gave it. *)
Theorem media_image_url_never_modified
    (pool : list string) (create_entity_id : EntityTypes → string → string)
    (calls : list (Operation * nat)) :
  (∀ self,
     MEDIA_IMAGE_URL
       (attributes (host.run_ops pool create_entity_id calls self).2)
     = MEDIA_IMAGE_URL (attributes self))
  ∧ (∀ config,
       MEDIA_IMAGE_URL
         (attributes
            (host.run_ops pool create_entity_id calls (__init__ config)).2)
       = "https://avatars.githubusercontent.com/u/102359576?s=200&v=4").
Proof.
  split.
  - apply run_ops_keeps_image_url.
  - intros config. by rewrite run_ops_keeps_image_url.
Qed.

(* ===================================================================== *)
(** ** C5 and C6: the command handler *)
(* ===================================================================== *)

Section Commands.
Import media_player.
Context (pool : list string).
Context (Commands_ON Commands_OFF Commands_TOGGLE Commands_PLAY_PAUSE : string).

Abbreviation handle_command :=
  (media_player.handle_command pool
     Commands_ON Commands_OFF Commands_TOGGLE Commands_PLAY_PAUSE).

(** C5: for a command identifier other than ON, OFF, TOGGLE and PLAY_PAUSE
    the handler returns NOT_IMPLEMENTED and the device is left exactly as it
    was: state, title, attributes and emitted events. *)
Theorem unknown_command_not_implemented
    (cmd_id : string) (params : option (gmap string string))
    (r : nat) (self : DemoDevice) :
  cmd_id ≠ Commands_ON → cmd_id ≠ Commands_OFF →
  cmd_id ≠ Commands_TOGGLE → cmd_id ≠ Commands_PLAY_PAUSE →
  handle_command cmd_id params r self = (Returned NOT_IMPLEMENTED, self).
Proof.
  intros Hon Hoff Htoggle Hplay.
  unfold media_player.handle_command, Eff.try_except, Eff.bind.
  by rewrite !decide_False by done.
Qed.

(** The handler on each of the four commands it knows. *)
Lemma handle_command_ON params r self :
  handle_command Commands_ON params r self = reported (power_on pool r self).
Proof.
  unfold media_player.handle_command, Eff.try_except, Eff.bind, reported.
  rewrite decide_True by done.
  by destruct (power_on pool r self) as [[[]|e] self'].
Qed.

Lemma handle_command_OFF params r self :
  Commands_OFF ≠ Commands_ON →
  handle_command Commands_OFF params r self = reported (power_off self).
Proof.
  intros Hne.
  unfold media_player.handle_command, Eff.try_except, Eff.bind, reported.
  rewrite decide_False, decide_True by done.
  by destruct (power_off self) as [[[]|e] self'].
Qed.

Lemma handle_command_TOGGLE params r self :
  Commands_TOGGLE ≠ Commands_ON → Commands_TOGGLE ≠ Commands_OFF →
  handle_command Commands_TOGGLE params r self
  = reported (power_toggle pool r self).
Proof.
  intros Hne1 Hne2.
  unfold media_player.handle_command, Eff.try_except, Eff.bind, reported.
  rewrite !decide_False, decide_True by done.
  by destruct (power_toggle pool r self) as [[[]|e] self'].
Qed.

Lemma handle_command_PLAY_PAUSE params r self :
  Commands_PLAY_PAUSE ≠ Commands_ON → Commands_PLAY_PAUSE ≠ Commands_OFF →
  Commands_PLAY_PAUSE ≠ Commands_TOGGLE →
  handle_command Commands_PLAY_PAUSE params r self
  = reported (play_pause pool r self).
Proof.
  intros Hne1 Hne2 Hne3.
  unfold media_player.handle_command, Eff.try_except, Eff.bind, reported.
  rewrite !decide_False, decide_True by done.
  by destruct (play_pause pool r self) as [[[]|e] self'].
Qed.

(** Whatever the command and whatever the device call does, the handler
    returns a status: nothing is raised to its caller. *)
Lemma handle_command_returns cmd_id params r self :
  ∃ status self',
    handle_command cmd_id params r self = (Returned status, self').
Proof.
  apply try_except_returns. intros e self'.
  by exists BAD_REQUEST, self'.
Qed.

(** C6: on each of ON, OFF, TOGGLE and PLAY_PAUSE the handler runs the
    device call of that command and returns a status, OK when the call
    returned and BAD_REQUEST when it raised, the device being left as the
    call left it; and for no command at all does the handler raise. *)
Theorem recognized_command_status
    (params : option (gmap string string)) (r : nat) (self : DemoDevice) :
  NoDup [Commands_ON; Commands_OFF; Commands_TOGGLE; Commands_PLAY_PAUSE] →
  handle_command Commands_ON params r self = reported (power_on pool r self)
  ∧ handle_command Commands_OFF params r self = reported (power_off self)
  ∧ handle_command Commands_TOGGLE params r self
    = reported (power_toggle pool r self)
  ∧ handle_command Commands_PLAY_PAUSE params r self
    = reported (play_pause pool r self)
  ∧ ∀ cmd_id, ∃ status self',
      handle_command cmd_id params r self = (Returned status, self').
Proof.
  intros Hdistinct.
  assert (Commands_OFF ≠ Commands_ON ∧ Commands_TOGGLE ≠ Commands_ON
          ∧ Commands_TOGGLE ≠ Commands_OFF
          ∧ Commands_PLAY_PAUSE ≠ Commands_ON
          ∧ Commands_PLAY_PAUSE ≠ Commands_OFF
          ∧ Commands_PLAY_PAUSE ≠ Commands_TOGGLE)
    as (? & ? & ? & ? & ? & ?).
  { repeat match goal with
           | H : NoDup (_ :: _) |- _ => apply NoDup_cons in H as [? H]
           end.
    set_solver. }
  split; [apply handle_command_ON|].
  split; [by apply handle_command_OFF|].
  split; [by apply handle_command_TOGGLE|].
  split; [by apply handle_command_PLAY_PAUSE|].
  intros cmd_id. apply handle_command_returns.
Qed.

End Commands.

Lemma unknown_command_not_implemented_witness :
  media_player.handle_command TV_SHOWS "on" "off" "toggle" "play_pause"
    "stop" None 0 (device_in PLAYING "Fargo")
  = (Returned NOT_IMPLEMENTED, device_in PLAYING "Fargo").
Proof.
  by apply (unknown_command_not_implemented
              TV_SHOWS "on" "off" "toggle" "play_pause" "stop" None 0
              (device_in PLAYING "Fargo")).
Defined.

(** With an empty show list [power_on] raises after it has assigned the
    state: the handler reports BAD_REQUEST and the device keeps that
    assignment. *)
Lemma recognized_command_status_witness :
  media_player.handle_command [] "on" "off" "toggle" "play_pause"
    "on" None 0 (__init__ demo_config)
  = (Returned BAD_REQUEST, set__power_state ON (__init__ demo_config))
  ∧ media_player.handle_command [] "on" "off" "toggle" "play_pause"
      "off" None 0 (device_in PLAYING "Fargo")
    = (Returned OK, device_in OFF "").
Proof.
  split.
  - refine (proj1 (recognized_command_status
                     [] "on" "off" "toggle" "play_pause" None 0
                     (__init__ demo_config) _)).
    by_evaluation.
  - refine (proj1 (proj2 (recognized_command_status
                            [] "on" "off" "toggle" "play_pause" None 0
                            (device_in PLAYING "Fargo") _))).
    by_evaluation.
Defined.

(** With the show list of the program every known command is reported OK. *)
Lemma recognized_command_OK
    (Commands_ON Commands_OFF Commands_TOGGLE Commands_PLAY_PAUSE : string)
    (cmd_id : string) (params : option (gmap string string))
    (r : nat) (self : DemoDevice) :
  cmd_id ∈ [Commands_ON; Commands_OFF; Commands_TOGGLE; Commands_PLAY_PAUSE] →
  ∃ self',
    media_player.handle_command TV_SHOWS
      Commands_ON Commands_OFF Commands_TOGGLE Commands_PLAY_PAUSE
      cmd_id params r self
    = (Returned OK, self').
Proof.
  intros Hcmd.
  unfold media_player.handle_command, Eff.try_except, Eff.bind, Eff.ret.
  destruct (run_op_returns (λ _ s, s) PowerOn r self) as [s1 H1].
  destruct (run_op_returns (λ _ s, s) PowerOff r self) as [s2 H2].
  destruct (run_op_returns (λ _ s, s) PowerToggle r self) as [s3 H3].
  destruct (run_op_returns (λ _ s, s) PlayPause r self) as [s4 H4].
  cbn [host.run_op] in *.
  repeat case_decide; rewrite ?H1, ?H2, ?H3, ?H4; try by eexists.
  exfalso.
  repeat (apply elem_of_cons in Hcmd as [?|Hcmd]; [done|]).
  by apply elem_of_nil in Hcmd.
Qed.

Example command_play_pause :
  media_player.handle_command TV_SHOWS "on" "off" "toggle" "play_pause"
    "play_pause" None 0 (device_in PLAYING "Fargo")
  = (Returned OK, device_in PAUSED "Breaking Bad").
Proof. vm_compute. reflexivity. Qed.

(* ===================================================================== *)
(** ** C7: the setup flow *)
(* ===================================================================== *)

Lemma append_inj_prefix (p a b : string) : p +:+ a = p +:+ b → a = b.
Proof. induction p as [|c p IH]; cbn; [done|]. intros [= H]. by apply IH. Qed.

Section Setup.
Import setup.

(** The form field as [query_device] reads it: a missing key counts as the
    empty string, and white space around the value is dropped. *)
Lemma query_device_run (rnd : N) (input_values : gmap string string) :
  let address := Py.strip (default "" (input_values !! "address")) in
  query_device rnd input_values =
  if decide (address = "") then Form _DEMO_INPUT_SCHEMA
  else Config
         {| const.identifier :=
              "demo_" +:+ Py.replace "." "_" address +:+ "_" +:+ short_id rnd;
            const.name := "Demo (" +:+ address +:+ ")";
            const.address := address |}.
Proof. reflexivity. Qed.

(** C7, as the code has it.  When the trimmed address is empty (or the field
    is missing) [query_device] returns the setup form itself, the one
    [get_manual_entry_form] returns.  Otherwise it returns a configuration
    record whose identifier is "demo_", the address with its dots replaced by
    underscores, "_" and the first eight characters of a new UUID, whose name
    is "Demo (address)" and whose address is the trimmed address.  Two calls
    with the same address give different identifiers exactly when the first
    four random bytes of their two UUIDs differ, those eight characters being
    the digits of these bytes. *)
Theorem query_device_result (input_values : gmap string string) :
  let address := Py.strip (default "" (input_values !! "address")) in
  (address = "" →
   ∀ rnd, query_device rnd input_values = Form get_manual_entry_form)
  ∧ (address ≠ "" →
     (∀ rnd,
        query_device rnd input_values =
        Config
          {| const.identifier :=
               "demo_" +:+ Py.replace "." "_" address +:+ "_" +:+ short_id rnd;
             const.name := "Demo (" +:+ address +:+ ")";
             const.address := address |})
     ∧ (∀ rnd1 rnd2 config1 config2,
          query_device rnd1 input_values = Config config1 →
          query_device rnd2 input_values = Config config2 →
          (const.identifier config1 ≠ const.identifier config2
           ↔ leading_bytes rnd1 ≠ leading_bytes rnd2))).
Proof.
  intros address. split.
  - intros Hempty rnd. rewrite query_device_run. fold address.
    by rewrite decide_True.
  - intros Hfilled.
    assert (∀ rnd,
              query_device rnd input_values =
              Config
                {| const.identifier :=
                     "demo_" +:+ Py.replace "." "_" address +:+ "_"
                     +:+ short_id rnd;
                   const.name := "Demo (" +:+ address +:+ ")";
                   const.address := address |}) as Hrun.
    { intros rnd. rewrite query_device_run. fold address.
      by rewrite decide_False. }
    split; [exact Hrun|].
    intros rnd1 rnd2 config1 config2.
    rewrite !Hrun. intros [= <-] [= <-]. cbn [const.identifier].
    rewrite <- short_id_eq_iff. split.
    + intros Hne Heq. apply Hne. by rewrite Heq.
    + intros Hne Heq. apply Hne.
      do 3 apply append_inj_prefix in Heq. exact Heq.
Qed.

End Setup.

Lemma query_device_result_witness :
  setup.query_device 7 {[ "address" := "   " ]}
  = setup.Form setup.get_manual_entry_form
  ∧ setup.query_device 0x0123456789abcdef0123456789abcdef
      {[ "address" := "  192.168.1.100 " ]}
    = setup.Config
        {| const.identifier :=
             "demo_" +:+ Py.replace "." "_" "192.168.1.100" +:+ "_"
             +:+ setup.short_id 0x0123456789abcdef0123456789abcdef;
           const.name := "Demo (" +:+ "192.168.1.100" +:+ ")";
           const.address := "192.168.1.100" |}.
Proof.
  split.
  - apply (proj1 (query_device_result {[ "address" := "   " ]})).
    vm_compute. reflexivity.
  - refine (proj1
              (proj2 (query_device_result
                        {[ "address" := "  192.168.1.100 " ]}) _) _).
    vm_compute. discriminate.
Defined.

(** C7 fails as stated in its last part: the identifier takes only the first
    eight characters of the UUID, so two calls whose UUIDs differ later on
    return the same identifier for the same address. *)
Lemma query_device_same_identifier_counterexample :
  Py.uuid4 0x0123456789abcdef0123456789abcdef
  ≠ Py.uuid4 0x01234567ffffffffffffffffffffffff
  ∧ setup.query_device 0x0123456789abcdef0123456789abcdef
      {[ "address" := "192.168.1.100" ]}
    = setup.Config
        {| const.identifier := "demo_192_168_1_100_01234567";
           const.name := "Demo (192.168.1.100)";
           const.address := "192.168.1.100" |}
  ∧ setup.query_device 0x01234567ffffffffffffffffffffffff
      {[ "address" := "192.168.1.100" ]}
    = setup.Config
        {| const.identifier := "demo_192_168_1_100_01234567";
           const.name := "Demo (192.168.1.100)";
           const.address := "192.168.1.100" |}.
Proof. by vm_compute. Qed.

(* ===================================================================== *)
(** ** Further properties of the device *)
(* ===================================================================== *)

(** Case analysis on a call, on the state it starts from and on the outcome
    of its show selection, for any show list. *)
Ltac by_call_outcome op r self :=
  let st := fresh "st" in
  destruct self as [? st ? ? ?];
  destruct op; cbn [host.run_op];
  rewrite ?establish_connection_run, ?power_toggle_run, ?poll_device_run,
    ?play_pause_run;
  cbv zeta; cbn [_power_state _media_title];
  destruct st; repeat settle_test;
  rewrite ?power_on_run, ?power_off_run;
  cbn [_power_state _media_title];
  try match goal with
      | |- context [Py.random_choice r ?l] => destruct (Py.random_choice r l)
      end;
  read_fields.

Section Frame.
Context (pool : list string).
Context (create_entity_id : EntityTypes → string → string).

Lemma run_op_keeps_config (op : Operation) (r : nat) (self : DemoDevice) :
  _device_config (host.run_op pool create_entity_id op r self).2
  = _device_config self.
Proof. by by_call_outcome op r self. Qed.

Lemma run_op_events (op : Operation) (r : nat) (self : DemoDevice) :
  ∃ new,
    events (host.run_op pool create_entity_id op r self).2
    = (events self ++ new)%list
    ∧ (length new ≤ (if decide (op = PollTick) then 1 else 0))%nat.
Proof.
  by_call_outcome op r self;
    first [ exists []; rewrite app_nil_r; split; [done | cbn; lia]
          | eexists [_]; split; [reflexivity | cbn; lia] ].
Qed.

Lemma run_ops_keeps_config
    (calls : list (Operation * nat)) (self : DemoDevice) :
  _device_config (host.run_ops pool create_entity_id calls self).2
  = _device_config self.
Proof.
  revert self. induction calls as [|[op r] calls IH]; intros self; [done|].
  cbn [host.run_ops]. unfold Eff.bind.
  pose proof (run_op_keeps_config op r self) as Hop.
  destruct (host.run_op pool create_entity_id op r self) as [[[]|e] mid];
    cbn [snd] in *; [by rewrite IH | done].
Qed.

(** X1: no call ever touches the configuration the device was built from,
    whether it returns or raises: after every sequence of calls, on any show
    list, the identifier, the name and the address of the device, and so its
    log id, are those of the configuration given to [__init__]. *)
Theorem device_config_never_modified
    (calls : list (Operation * nat)) (config : DemoConfig) :
  let self' :=
    (host.run_ops pool create_entity_id calls (__init__ config)).2 in
  _device_config self' = config
  ∧ identifier self' = const.identifier config
  ∧ name self' = const.name config
  ∧ address self' = const.address config
  ∧ log_id self' = log_id (__init__ config).
Proof.
  cbv zeta. pose proof (run_ops_keeps_config calls (__init__ config)) as Hkeep.
  unfold log_id, name, identifier, address. rewrite Hkeep. done.
Qed.

(** X2: only a poll emits.  After a sequence of calls, on any show list and
    whether or not a call raised, the emitter has received what it had
    received before followed by at most one event per poll of the sequence;
    power_on, power_off, power_toggle, play_pause and establish_connection
    emit nothing. *)
Theorem events_only_from_polls
    (calls : list (Operation * nat)) (self : DemoDevice) :
  ∃ new,
    events (host.run_ops pool create_entity_id calls self).2
    = (events self ++ new)%list
    ∧ (length new ≤ polls calls)%nat.
Proof.
  revert self. induction calls as [|[op r] calls IH]; intros self.
  - exists []. by rewrite app_nil_r.
  - cbn [host.run_ops]. unfold Eff.bind.
    destruct (run_op_events op r self) as (new1 & Hnew1 & Hlen1).
    assert (polls ((op, r) :: calls)
            = (if decide (op = PollTick) then 1 else 0) + polls calls) as ->.
    { unfold polls. rewrite filter_cons. cbn [fst].
      by destruct (decide (op = PollTick)). }
    destruct (host.run_op pool create_entity_id op r self) as [[[]|e] mid];
      cbn [snd] in *.
    + destruct (IH mid) as (new2 & Hnew2 & Hlen2).
      exists (new1 ++ new2)%list. rewrite Hnew2, Hnew1, app_assoc.
      split; [done|]. rewrite length_app. lia.
    + exists new1. split; [done|]. lia.
Qed.

End Frame.

Section Failure.
Context (pool : list string).
Context (create_entity_id : EntityTypes → string → string).

Lemma available_shows_nil (title : string) :
  available_shows pool title = [] ↔ ∀ show, show ∈ pool → show = title.
Proof.
  split.
  - intros Hnil show Hin. destruct (decide (show = title)) as [|Hne]; [done|].
    assert (show ∈ available_shows pool title) as Hav
      by (by apply available_shows_spec).
    rewrite Hnil in Hav. by apply not_elem_of_nil in Hav.
  - intros Hall. destruct (available_shows pool title) as [|show l] eqn:Hav;
      [done|].
    assert (show ∈ available_shows pool title) as Hin
      by (rewrite Hav; by left).
    apply available_shows_spec in Hin as [Hin Hne]. by apply Hall in Hin.
Qed.

Lemma choice_raises (r : nat) (title : string) (e : exn) :
  Py.random_choice r (available_shows pool title) = Raised e →
  e = IndexError ∧ ∀ show, show ∈ pool → show = title.
Proof.
  intros [Hnil ->]%random_choice_raises. split; [done|].
  by apply available_shows_nil.
Qed.


(** X4: a call that raises is not rolled back.  Whatever the show list, a
    call can only raise [IndexError], and only when the list has no show
    other than the current title.  The device is then left with the power
    state the call had assigned before it selected (ON for
    establish_connection, power_on, power_toggle and for play_pause from
    OFF; PLAYING for play_pause from PAUSED or ON; PAUSED for play_pause
    from PLAYING) and with everything else as before, the attribute snapshot
    included: a snapshot that was in sync is still in sync exactly when that
    assigned state is the state the device had.  A poll that raises leaves
    the device exactly as it was. *)
Theorem raising_call_keeps_partial_state
    (op : Operation) (r : nat) (self self' : DemoDevice) (e : exn) :
  host.run_op pool create_entity_id op r self = (Raised e, self') →
  e = IndexError
  ∧ (∀ show, show ∈ pool → show = _media_title self)
  ∧ self'
    = set__power_state
        (assigned_before_selection op (_power_state self)) self
  ∧ attributes self' = attributes self
  ∧ (snapshot_in_sync self →
     (snapshot_in_sync self'
      ↔ assigned_before_selection op (_power_state self)
        = _power_state self))
  ∧ (op = PollTick → self' = self).
Proof.
  destruct self as [config st title attrs evs].
  destruct op; cbn [host.run_op];
    rewrite ?establish_connection_run, ?power_toggle_run, ?poll_device_run,
      ?play_pause_run;
    cbv zeta; cbn [_power_state _media_title];
    destruct st; repeat settle_test;
    rewrite ?power_on_run, ?power_off_run;
    cbn [_power_state _media_title];
    try (destruct (Py.random_choice r (available_shows pool title))
           as [show|e'] eqn:Hchoice);
    intros [= <- <-];
    apply choice_raises in Hchoice as [-> Hall];
    (split; [done|]); (split; [done|]);
    (split; [reflexivity|]); (split; [done|]);
    (split; [|done]);
    unfold snapshot_in_sync; cbn; intros [Hstate Htitle];
    (split; [intros [?  _]; congruence | intros ?; by split]).
Qed.

End Failure.


Lemma raising_call_keeps_partial_state_witness :
  IndexError = IndexError
  ∧ (∀ show, show ∈ ["Fargo"] → show = "Fargo")
  ∧ set__power_state PAUSED (device_in PLAYING "Fargo")
    = set__power_state
        (assigned_before_selection PlayPause PLAYING)
        (device_in PLAYING "Fargo")
  ∧ attributes (set__power_state PAUSED (device_in PLAYING "Fargo"))
    = attributes (device_in PLAYING "Fargo")
  ∧ (snapshot_in_sync (device_in PLAYING "Fargo") →
     (snapshot_in_sync (set__power_state PAUSED (device_in PLAYING "Fargo"))
      ↔ assigned_before_selection PlayPause PLAYING = PLAYING))
  ∧ (PlayPause = PollTick →
     set__power_state PAUSED (device_in PLAYING "Fargo")
     = device_in PLAYING "Fargo").
Proof.
  apply (raising_call_keeps_partial_state ["Fargo"] dotted_entity_id
           PlayPause 0 (device_in PLAYING "Fargo")).
  vm_compute. reflexivity.
Defined.

(** Both cases of the snapshot after a raise: [power_on] on a device that is
    already ON leaves it in sync, [play_pause] on a playing device does
    not. *)
Example raise_in_sync :
  power_on ["Fargo"] 0 (device_in ON "Fargo")
  = (Raised IndexError, device_in ON "Fargo").
Proof. vm_compute. reflexivity. Qed.

Example raise_out_of_sync :
  play_pause ["Fargo"] 0 (device_in PLAYING "Fargo")
  = (Raised IndexError, set__power_state PAUSED (device_in PLAYING "Fargo"))
  ∧ STATE (attributes (set__power_state PAUSED (device_in PLAYING "Fargo")))
    = PLAYING.
Proof. vm_compute. by split. Qed.

(* ===================================================================== *)
(** ** Further properties of the device of the program *)
(* ===================================================================== *)

(** Case analysis on a call of the program and on the state it starts from;
    [show] is the selected show. *)
Ltac by_program_call op r self show Hin Hne :=
  let Hshow := fresh "Hshow" in
  let st := fresh "st" in
  destruct self as [? st ? ? ?];
  match goal with
  | |- context [Build_DemoDevice _ _ ?title _ _] =>
      destruct (choice_available TV_SHOWS r title TV_SHOWS_two_distinct)
        as (show & Hshow & Hin & Hne)
  end;
  destruct op; cbn [host.run_op];
  rewrite ?establish_connection_run, ?power_toggle_run, ?poll_device_run,
    ?play_pause_run;
  cbv zeta; cbn [_power_state _media_title];
  destruct st; repeat settle_test;
  rewrite ?power_on_run, ?power_off_run;
  cbn [_power_state _media_title]; rewrite ?Hshow; clear Hshow.

Section Program.
Context (create_entity_id : EntityTypes → string → string).

Abbreviation run_op := (host.run_op TV_SHOWS create_entity_id).
Abbreviation run_ops := (host.run_ops TV_SHOWS create_entity_id).

Lemma run_ops_app (calls1 calls2 : list (Operation * nat)) (self mid : DemoDevice) :
  run_ops calls1 self = (Returned tt, mid) →
  run_ops (calls1 ++ calls2) self = run_ops calls2 mid.
Proof.
  revert self. induction calls1 as [|[op r] calls1 IH]; intros self; cbn.
  - by intros [= ->].
  - unfold Eff.bind.
    destruct (host.run_op TV_SHOWS create_entity_id op r self)
      as [[[]|e] self1]; [apply IH | done].
Qed.

(** X5: two power toggles.  On a device that is off (state OFF, empty title,
    snapshot in sync) they give back exactly the device they started from,
    whatever was drawn in between.  On a device that is ON, PLAYING or
    PAUSED they end in the state ON, so that a playing or paused device is
    not playing or paused any more; the title is drawn from the whole show
    list, any show being possible, the title before the toggles included;
    the snapshot shows both and nothing is emitted. *)
Theorem power_toggle_twice (r1 r2 : nat) (self : DemoDevice) :
  (_power_state self = OFF → _media_title self = "" →
   snapshot_in_sync self →
   run_ops [(PowerToggle, r1); (PowerToggle, r2)] self = (Returned tt, self))
  ∧ (_power_state self ∈ [ON; PLAYING; PAUSED] →
     (∃ show,
        run_ops [(PowerToggle, r1); (PowerToggle, r2)] self
        = (Returned tt,
           copied_to_attributes
             (set__media_title show (set__power_state ON self)))
        ∧ show ∈ TV_SHOWS)
     ∧ (∀ show, show ∈ TV_SHOWS →
          ∃ r2',
            run_ops [(PowerToggle, r1); (PowerToggle, r2')] self
            = (Returned tt,
               copied_to_attributes
                 (set__media_title show (set__power_state ON self))))).
Proof.
  split.
  - destruct self as [config st title [ast atitle url] evs].
    unfold snapshot_in_sync. cbn. intros -> -> [-> ->].
    destruct (choice_available TV_SHOWS r1 "" TV_SHOWS_two_distinct)
      as (show & Hshow & _).
    unfold Eff.bind. rewrite power_toggle_run. cbn [_power_state].
    settle_test. rewrite power_on_run. cbn [_media_title]. rewrite Hshow.
    rewrite power_toggle_run. read_fields. by settle_test.
  - intros Hst.
    assert (∀ r show,
              Py.random_choice r (available_shows TV_SHOWS "")
              = Returned show →
              run_ops [(PowerToggle, r1); (PowerToggle, r)] self
              = (Returned tt,
                 copied_to_attributes
                   (set__media_title show (set__power_state ON self))))
      as Hrun.
    { intros r show Hshow. cbn. unfold Eff.bind.
      rewrite power_toggle_run, decide_True, power_off_run by done.
      rewrite power_toggle_run. read_fields. settle_test.
      rewrite power_on_run. read_fields. rewrite Hshow.
      by destruct self. }
    split.
    + destruct (choice_available TV_SHOWS r2 "" TV_SHOWS_two_distinct)
        as (show & Hshow & Hin & _).
      exists show. split; [by apply Hrun | done].
    + intros show Hin.
      destruct (random_choice_any (available_shows TV_SHOWS "") show)
        as [r2' Hr2'].
      { apply available_shows_spec. split; [done|].
        by apply TV_SHOWS_nonempty_titles. }
      exists r2'. by apply Hrun.
Qed.

(** X6: from PAUSED and from ON a press of play/pause returns with the state
    PLAYING and a newly selected title, a member of the show list other than
    the title before; nothing is emitted. *)
Theorem play_pause_resumes (r : nat) (self : DemoDevice) :
  _power_state self = PAUSED ∨ _power_state self = ON →
  ∃ self', play_pause TV_SHOWS r self = (Returned tt, self')
           ∧ _power_state self' = PLAYING
           ∧ _media_title self' ∈ TV_SHOWS
           ∧ _media_title self' ≠ _media_title self
           ∧ events self' = events self.
Proof.
  intros Hst. rewrite play_pause_run. cbv zeta.
  destruct (choice_available TV_SHOWS r (_media_title self)
              TV_SHOWS_two_distinct) as (show & -> & Hin & Hne).
  destruct Hst as [-> | ->]; (eexists; split; [reflexivity|]); by read_fields.
Qed.

Lemma play_pause_pressed (r : nat) (self : DemoDevice) :
  ∃ self', play_pause TV_SHOWS r self = (Returned tt, self')
           ∧ _power_state self' = pressed (_power_state self).
Proof.
  rewrite play_pause_run. cbv zeta.
  destruct (choice_available TV_SHOWS r (_media_title self)
              TV_SHOWS_two_distinct) as (show & -> & Hin & Hne).
  destruct self as [config st title attrs evs].
  destruct st; (eexists; split; [reflexivity|done]).
Qed.

Lemma presses_state (draws : list nat) (self : DemoDevice) :
  ∃ self', run_ops (presses draws) self = (Returned tt, self')
           ∧ _power_state self'
             = Nat.iter (length draws) pressed (_power_state self).
Proof.
  revert self. induction draws as [|r draws IH] using rev_ind; intros self.
  - by exists self.
  - destruct (IH self) as (mid & Hmid & Hst).
    destruct (play_pause_pressed r mid) as (self' & Hpress & Hst').
    exists self'. unfold presses in *. rewrite fmap_app.
    rewrite (run_ops_app _ _ _ _ Hmid). cbn. unfold Eff.bind.
    rewrite Hpress. split; [done|].
    rewrite length_app, Nat.add_comm. cbn. by rewrite Hst', Hst.
Qed.

Lemma pressed_parity (n : nat) :
  Nat.iter n pressed PLAYING = (if Nat.even n then PLAYING else PAUSED)
  ∧ Nat.iter (S n) pressed PAUSED = (if Nat.even n then PLAYING else PAUSED).
Proof.
  induction n as [|n [IH1 IH2]]; [done|].
  split.
  - change (Nat.iter (S n) pressed PLAYING)
      with (pressed (Nat.iter n pressed PLAYING)).
    rewrite IH1.
    rewrite Nat.even_succ, <- Nat.negb_even. by destruct (Nat.even n).
  - change (Nat.iter (S (S n)) pressed PAUSED)
      with (pressed (Nat.iter (S n) pressed PAUSED)).
    rewrite IH2, Nat.even_succ, <- Nat.negb_even. by destruct (Nat.even n).
Qed.

(** X7: repeated presses of play/pause alternate.  From PLAYING, [n] presses
    leave the device PLAYING when [n] is even and PAUSED when it is odd; from
    OFF, ON or PAUSED the first press leads to PLAYING, so that [n + 1]
    presses leave it PLAYING when [n] is even and PAUSED when it is odd. *)
Theorem play_pause_alternates (draws : list nat) (r : nat) (self : DemoDevice) :
  (_power_state self = PLAYING →
   ∃ self', run_ops (presses draws) self = (Returned tt, self')
            ∧ _power_state self'
              = if Nat.even (length draws) then PLAYING else PAUSED)
  ∧ (_power_state self ∈ [OFF; ON; PAUSED] →
     ∃ self', run_ops (presses (r :: draws)) self = (Returned tt, self')
              ∧ _power_state self'
                = if Nat.even (length draws) then PLAYING else PAUSED).
Proof.
  split.
  - intros Hst. destruct (presses_state draws self) as (self' & Hrun & Hfin).
    exists self'. split; [done|].
    by rewrite Hfin, Hst, (proj1 (pressed_parity _)).
  - intros Hst.
    destruct (presses_state (r :: draws) self) as (self' & Hrun & Hfin).
    exists self'. split; [done|]. rewrite Hfin.
    rewrite <- (proj2 (pressed_parity (length draws))).
    cbn [length]. rewrite !Nat.iter_succ_r. f_equal.
    repeat (apply elem_of_cons in Hst as [->|Hst]; [done|]).
    by apply elem_of_nil in Hst.
Qed.

End Program.

Lemma power_toggle_twice_witness :
  host.run_ops TV_SHOWS dotted_entity_id [(PowerToggle, 4); (PowerToggle, 9)]
    (__init__ demo_config)
  = (Returned tt, __init__ demo_config)
  ∧ ∃ r2',
      host.run_ops TV_SHOWS dotted_entity_id
        [(PowerToggle, 4); (PowerToggle, r2')] (device_in PAUSED "Fargo")
      = (Returned tt,
         copied_to_attributes
           (set__media_title "Fargo"
              (set__power_state ON (device_in PAUSED "Fargo")))).
Proof.
  split.
  - apply (proj1 (power_toggle_twice dotted_entity_id 4 9
                    (__init__ demo_config)));
      [reflexivity | reflexivity | split; reflexivity].
  - refine (proj2 (proj2 (power_toggle_twice dotted_entity_id 4 9
                            (device_in PAUSED "Fargo")) _) "Fargo" _);
      by_evaluation.
Defined.

(** Two toggles on a device that is ON may give the very same device back,
    and on a paused device they give one that is ON. *)
Example toggle_twice_same_device :
  host.run_ops TV_SHOWS dotted_entity_id [(PowerToggle, 0); (PowerToggle, 17)]
    (device_in ON "Fargo")
  = (Returned tt, device_in ON "Fargo").
Proof. vm_compute. reflexivity. Qed.

Example toggle_twice_while_paused :
  host.run_ops TV_SHOWS dotted_entity_id [(PowerToggle, 0); (PowerToggle, 17)]
    (device_in PAUSED "Fargo")
  = (Returned tt, device_in ON "Fargo").
Proof. vm_compute. reflexivity. Qed.

Lemma play_pause_resumes_witness :
  ∃ self', play_pause TV_SHOWS 2 (device_in ON "Fargo") = (Returned tt, self')
           ∧ _power_state self' = PLAYING
           ∧ _media_title self' ∈ TV_SHOWS
           ∧ _media_title self' ≠ "Fargo"
           ∧ events self' = [].
Proof.
  apply (play_pause_resumes 2 (device_in ON "Fargo")). right. reflexivity.
Defined.

Lemma play_pause_alternates_witness :
  (∃ self',
     host.run_ops TV_SHOWS dotted_entity_id (presses [1; 2; 3])
       (device_in PLAYING "Fargo")
     = (Returned tt, self')
     ∧ _power_state self' = PAUSED)
  ∧ (∃ self',
       host.run_ops TV_SHOWS dotted_entity_id (presses [0; 1; 2; 3])
         (__init__ demo_config)
       = (Returned tt, self')
       ∧ _power_state self' = PAUSED).
Proof.
  split.
  - apply (proj1 (play_pause_alternates dotted_entity_id [1; 2; 3] 0
                    (device_in PLAYING "Fargo"))).
    reflexivity.
  - apply (proj2 (play_pause_alternates dotted_entity_id [1; 2; 3] 0
                    (__init__ demo_config))).
    by_evaluation.
Defined.

(* ===================================================================== *)
(** ** What can be observed of a device of the program *)
(* ===================================================================== *)

Section Observed.
Context (create_entity_id : EntityTypes → string → string).

Abbreviation run_op := (host.run_op TV_SHOWS create_entity_id).
Abbreviation run_ops := (host.run_ops TV_SHOWS create_entity_id).

Lemma run_op_title_in_pool (op : Operation) (r : nat) (self : DemoDevice) :
  (_power_state self ≠ OFF → _media_title self ∈ TV_SHOWS) →
  ∃ self', run_op op r self = (Returned tt, self')
           ∧ (_power_state self' ≠ OFF → _media_title self' ∈ TV_SHOWS).
Proof.
  intros Hinv. by_program_call op r self show Hin Hne;
    (eexists; split; [reflexivity|]); read_fields;
    first [exact Hinv | done].
Qed.

Lemma run_op_poll_events
    (config : DemoConfig) (op : Operation) (r : nat) (self : DemoDevice) :
  _device_config self = config
  ∧ Forall (poll_event
              (create_entity_id MEDIA_PLAYER (const.identifier config)))
      (events self) →
  ∃ self', run_op op r self = (Returned tt, self')
           ∧ _device_config self' = config
           ∧ Forall (poll_event
                       (create_entity_id MEDIA_PLAYER
                          (const.identifier config)))
               (events self').
Proof.
  intros [Hconfig Hevents]. by_program_call op r self show Hin Hne;
    (eexists; split; [reflexivity|]); read_fields;
    (split; [done|]); try done;
    (apply Forall_app; split; [done|]); apply Forall_singleton;
    unfold poll_event; read_fields; subst config;
    (split; [done|]); (split; [done|]); (split; [by_evaluation|done]).
Qed.

(** X8: whenever a device of the program is not OFF, its title is one of
    the twenty shows of [TV_SHOWS], and so is the title of its snapshot:
    this holds after every sequence of calls on a new device. *)
Theorem title_is_a_show
    (config : DemoConfig) (calls : list (Operation * nat)) :
  ∃ self, run_ops calls (__init__ config) = (Returned tt, self)
          ∧ (_power_state self ≠ OFF →
             _media_title self ∈ TV_SHOWS
             ∧ MEDIA_TITLE (attributes self) ∈ TV_SHOWS).
Proof.
  destruct (run_ops_preserves create_entity_id
              (λ self, (_power_state self ≠ OFF →
                        _media_title self ∈ TV_SHOWS)
                       ∧ snapshot_in_sync self))
    with (calls := calls) (self := __init__ config)
    as (self & Hrun & Htitle & _ & Hsync).
  - intros op r self [Htitle Hsync].
    destruct (run_op_title_in_pool op r self Htitle) as (s1 & H1 & ?).
    destruct (run_op_snapshot_in_sync create_entity_id op r self)
      as (s2 & H2 & ?); [auto|].
    exists s1. split; [done|]. split; [done|]. congruence.
  - done.
  - exists self. split; [done|]. intros Hst. rewrite Hsync. auto.
Qed.

(** X9: every event a device of the program has emitted, after any sequence
    of calls on a new device, is an UPDATE addressed to the entity that
    [DemoMediaPlayer.__init__] creates for the same configuration, and
    carries the state ON or PLAYING and a title of the show list: nothing is
    ever emitted for a device that is off or paused. *)
Theorem events_are_poll_updates
    (config : DemoConfig) (calls : list (Operation * nat)) :
  ∃ self, run_ops calls (__init__ config) = (Returned tt, self)
          ∧ ∀ e, e ∈ events self →
              ev_event e = UPDATE
              ∧ ev_entity_id e
                = media_player.entity_id
                    (media_player.__init__ create_entity_id config
                       (__init__ config))
              ∧ ev_STATE e ∈ [ON; PLAYING]
              ∧ ev_MEDIA_TITLE e ∈ TV_SHOWS.
Proof.
  destruct (run_ops_preserves create_entity_id
              (λ self, _device_config self = config
                       ∧ Forall (poll_event
                                   (create_entity_id MEDIA_PLAYER
                                      (const.identifier config)))
                           (events self)))
    with (calls := calls) (self := __init__ config)
    as (self & Hrun & _ & Hevents).
  - intros op r self Hinv. by apply run_op_poll_events.
  - split; [done|]. apply Forall_nil_2.
  - exists self. split; [done|]. intros e He.
    rewrite Forall_forall in Hevents. by apply Hevents.
Qed.

(** X10: what the framework reads with [get_device_attributes], for any
    entity id and after any sequence of calls on a new device, is the
    current state, the current title and the image URL set by [__init__]. *)
Theorem get_device_attributes_current
    (config : DemoConfig) (calls : list (Operation * nat))
    (entity_id : string) :
  ∃ self, run_ops calls (__init__ config) = (Returned tt, self)
          ∧ get_device_attributes entity_id self
            = {| STATE := state self;
                 MEDIA_TITLE := media_title self;
                 MEDIA_IMAGE_URL :=
                   "https://avatars.githubusercontent.com/u/102359576?s=200&v=4"
              |}.
Proof.
  destruct (run_ops_preserves create_entity_id snapshot_in_sync)
    with (calls := calls) (self := __init__ config)
    as (self & Hrun & Hstate & Htitle).
  - intros op r self Hsync. apply run_op_snapshot_in_sync. auto.
  - done.
  - exists self. split; [done|].
    pose proof (run_ops_keeps_image_url TV_SHOWS create_entity_id calls
                  (__init__ config)) as Hurl.
    rewrite Hrun in Hurl. cbn [snd] in Hurl.
    unfold get_device_attributes, state, media_title.
    destruct (attributes self) as [st title url]. cbn in *. by subst.
Qed.

End Observed.

(* ===================================================================== *)
(** ** Further properties of the command handler *)
(* ===================================================================== *)

Section Handled.
Context (pool : list string).
Context (create_entity_id : EntityTypes → string → string).
Context (Commands_ON Commands_OFF Commands_TOGGLE Commands_PLAY_PAUSE : string).

Abbreviation handle_command :=
  (media_player.handle_command pool
     Commands_ON Commands_OFF Commands_TOGGLE Commands_PLAY_PAUSE).
Abbreviation known_commands :=
  [Commands_ON; Commands_OFF; Commands_TOGGLE; Commands_PLAY_PAUSE].

(** The handler either knows the command and reports on one of the four
    device calls, or returns NOT_IMPLEMENTED at once. *)
Lemma handle_command_as_call cmd_id params r self :
  ((cmd_id ∉ known_commands)
   ∧ handle_command cmd_id params r self = (Returned NOT_IMPLEMENTED, self))
  ∨ (cmd_id ∈ known_commands
     ∧ ∃ op, op ≠ PollTick
             ∧ handle_command cmd_id params r self
               = reported (host.run_op pool create_entity_id op r self)).
Proof.
  unfold media_player.handle_command, Eff.try_except, Eff.bind, Eff.ret.
  destruct (decide (cmd_id = Commands_ON)) as [->|Hon].
  { right. split; [by left|]. exists PowerOn. split; [done|]. cbn [host.run_op].
    by destruct (power_on pool r self) as [[[]|?] ?]. }
  destruct (decide (cmd_id = Commands_OFF)) as [->|Hoff].
  { right. split; [by right; left|]. exists PowerOff. split; [done|]. cbn [host.run_op].
    by destruct (power_off self) as [[[]|?] ?]. }
  destruct (decide (cmd_id = Commands_TOGGLE)) as [->|Htoggle].
  { right. split; [by do 2 right; left|]. exists PowerToggle.
    split; [done|]. cbn [host.run_op].
    by destruct (power_toggle pool r self) as [[[]|?] ?]. }
  destruct (decide (cmd_id = Commands_PLAY_PAUSE)) as [->|Hplay].
  { right. split; [by do 3 right; left|]. exists PlayPause.
    split; [done|]. cbn [host.run_op].
    by destruct (play_pause pool r self) as [[[]|?] ?]. }
  left. split; [|done]. intros Hin.
  repeat (apply elem_of_cons in Hin as [?|Hin]; [done|]).
  by apply elem_of_nil in Hin.
Qed.

Lemma handle_command_emits_nothing cmd_id params r self :
  events (handle_command cmd_id params r self).2 = events self.
Proof.
  destruct (handle_command_as_call cmd_id params r self)
    as [[_ ->] | (_ & op & Hop & ->)]; [done|].
  pose proof (run_op_events pool create_entity_id op r self)
    as (new & Hnew & Hlen).
  rewrite decide_False in Hlen by done.
  destruct new; [|cbn in Hlen; lia]. rewrite app_nil_r in Hnew.
  by destruct (host.run_op pool create_entity_id op r self) as [[[]|?] ?].
Qed.

(** X11: a command never emits an event and never touches the configuration
    or the image URL of the device: for every command identifier, known or
    not, on any show list and whether the device call returned or raised,
    the handler leaves these three as they were. *)
Theorem handle_command_frame
    (cmd_id : string) (params : option (gmap string string))
    (r : nat) (self : DemoDevice) :
  let self' := (handle_command cmd_id params r self).2 in
  events self' = events self
  ∧ _device_config self' = _device_config self
  ∧ MEDIA_IMAGE_URL (attributes self') = MEDIA_IMAGE_URL (attributes self).
Proof.
  cbv zeta. split; [apply handle_command_emits_nothing|].
  destruct (handle_command_as_call cmd_id params r self)
    as [[_ ->] | (_ & op & Hop & ->)]; [done|].
  pose proof (run_op_keeps_config pool create_entity_id op r self) as Hconfig.
  pose proof (run_op_keeps_image_url pool create_entity_id op r self) as Hurl.
  by destruct (host.run_op pool create_entity_id op r self) as [[[]|?] ?].
Qed.

End Handled.

Section HandledProgram.
Context (create_entity_id : EntityTypes → string → string).
Context (Commands_ON Commands_OFF Commands_TOGGLE Commands_PLAY_PAUSE : string).

Abbreviation handle_command :=
  (media_player.handle_command TV_SHOWS
     Commands_ON Commands_OFF Commands_TOGGLE Commands_PLAY_PAUSE).
Abbreviation known_commands :=
  [Commands_ON; Commands_OFF; Commands_TOGGLE; Commands_PLAY_PAUSE].
Abbreviation run_commands :=
  (host.run_commands TV_SHOWS
     Commands_ON Commands_OFF Commands_TOGGLE Commands_PLAY_PAUSE).

(** The status the handler of the program returns. *)
Lemma handle_command_status cmd_id params r self :
  ∃ self',
    handle_command cmd_id params r self
    = (Returned (if decide (cmd_id ∈ known_commands) then OK
                 else NOT_IMPLEMENTED), self')
    ∧ (title_empty_iff_off self → title_empty_iff_off self')
    ∧ (snapshot_in_sync self → snapshot_in_sync self')
    ∧ events self' = events self.
Proof.
  pose proof (handle_command_emits_nothing TV_SHOWS create_entity_id
                Commands_ON Commands_OFF Commands_TOGGLE Commands_PLAY_PAUSE
                cmd_id params r self) as Hevents.
  destruct (handle_command_as_call TV_SHOWS create_entity_id
              Commands_ON Commands_OFF Commands_TOGGLE Commands_PLAY_PAUSE
              cmd_id params r self)
    as [[Hcmd Hrun] | (Hcmd & op & Hop & Hrun)]; rewrite Hrun in *.
  - exists self. by rewrite decide_False.
  - rewrite decide_True by done.
    destruct (run_op_returns create_entity_id op r self) as (self' & Hcall).
    rewrite Hcall in *. exists self'. split; [done|].
    split; [|split; [|done]].
    + intros Hinv.
      destruct (run_op_title_empty_iff_off create_entity_id op r self Hinv)
        as (s1 & H1 & ?). congruence.
    + intros Hinv.
      destruct (run_op_snapshot_in_sync create_entity_id op r self)
        as (s1 & H1 & ?); [auto|]. congruence.
Qed.

(** X12: with the show list of the program the handler never reports
    BAD_REQUEST: on every device and for every command identifier it returns
    OK when the identifier is one of the four known commands and
    NOT_IMPLEMENTED otherwise. *)
Theorem handle_command_never_bad_request
    (cmd_id : string) (params : option (gmap string string))
    (r : nat) (self : DemoDevice) :
  ∃ self',
    handle_command cmd_id params r self
    = (Returned (if decide (cmd_id ∈ known_commands) then OK
                 else NOT_IMPLEMENTED), self').
Proof.
  destruct (handle_command_status cmd_id params r self) as (self' & H & _).
  by exists self'.
Qed.

(** X13: a device that only receives commands.  After any sequence of
    commands on a new device the handler has returned one status per command
    (OK for a known command, NOT_IMPLEMENTED for any other), the title is
    empty exactly when the device is OFF, the snapshot shows the internal
    state, and no event at all has been emitted. *)
Theorem commands_keep_device_consistent
    (config : DemoConfig) (commands : list (string * nat)) :
  ∃ self,
    run_commands commands (__init__ config)
    = (Returned
         ((λ command, if decide (command.1 ∈ known_commands) then OK
                      else NOT_IMPLEMENTED) <$> commands),
       self)
    ∧ (_media_title self = "" ↔ _power_state self = OFF)
    ∧ STATE (attributes self) = _power_state self
    ∧ MEDIA_TITLE (attributes self) = _media_title self
    ∧ events self = [].
Proof.
  assert (∀ self,
            title_empty_iff_off self → snapshot_in_sync self →
            ∃ self',
              run_commands commands self
              = (Returned
                   ((λ command, if decide (command.1 ∈ known_commands) then OK
                                else NOT_IMPLEMENTED) <$> commands),
                 self')
              ∧ title_empty_iff_off self' ∧ snapshot_in_sync self'
              ∧ events self' = events self) as Hall.
  { induction commands as [|[cmd_id r] commands IH]; intros self Htitle Hsync.
    - by exists self.
    - destruct (handle_command_status cmd_id None r self)
        as (mid & Hmid & Htitle' & Hsync' & Hevents).
      destruct (IH mid (Htitle' Htitle) (Hsync' Hsync))
        as (self' & Hrun & ? & ? & Hevents').
      exists self'. cbn [host.run_commands fmap list_fmap fst].
      unfold Eff.bind at 1. rewrite Hmid. unfold Eff.bind at 1.
      rewrite Hrun. split; [done|]. split; [done|]. split; [done|].
      congruence. }
  destruct (Hall (__init__ config)) as (self & Hrun & Htitle & [??] & Hev);
    [done..|].
  by exists self.
Qed.

End HandledProgram.

Example commands_on_new_device :
  host.run_commands TV_SHOWS "on" "off" "toggle" "play_pause"
    [("play_pause", 5); ("stop", 0); ("play_pause", 0); ("toggle", 1)]
    (__init__ demo_config)
  = (Returned [OK; NOT_IMPLEMENTED; OK; OK], __init__ demo_config).
Proof. vm_compute. reflexivity. Qed.

(* ===================================================================== *)
(** ** Strings: reversal, trimming and characters *)
(* ===================================================================== *)

Section Strings.

Lemma rev_app_append (s t : string) :
  String.rev_app s t = String.rev s +:+ t.
Proof.
  revert t. induction s as [|c s IH]; intros t; [done|].
  unfold String.rev. cbn [String.rev_app].
  rewrite (IH (String c t)), (IH (String c "")).
  by rewrite append_assoc.
Qed.

Lemma rev_cons (c : ascii) (s : string) :
  String.rev (String c s) = String.rev s +:+ String c "".
Proof. unfold String.rev at 1. cbn [String.rev_app]. apply rev_app_append. Qed.

Lemma rev_append (a b : string) :
  String.rev (a +:+ b) = String.rev b +:+ String.rev a.
Proof.
  induction a as [|c a IH].
  - by rewrite append_empty_r.
  - change (String c a +:+ b) with (String c (a +:+ b)).
    by rewrite !rev_cons, IH, append_assoc.
Qed.

Lemma rev_involutive (s : string) : String.rev (String.rev s) = s.
Proof.
  induction s as [|c s IH]; [done|].
  by rewrite rev_cons, rev_append, IH.
Qed.

Lemma rev_empty_iff (s : string) : String.rev s = "" ↔ s = "".
Proof.
  split; [|by intros ->]. intros H.
  apply (f_equal String.rev) in H. by rewrite rev_involutive in H.
Qed.

Lemma all_space_append (a b : string) :
  all_space (a +:+ b) = all_space a && all_space b.
Proof.
  induction a as [|c a IH]; [done|].
  change (String c a +:+ b) with (String c (a +:+ b)). cbn.
  by rewrite IH, andb_assoc.
Qed.

Lemma all_space_rev (s : string) : all_space (String.rev s) = all_space s.
Proof.
  induction s as [|c s IH]; [done|].
  rewrite rev_cons, all_space_append, IH. cbn.
  by rewrite andb_true_r, andb_comm.
Qed.

Lemma lstrip_split (s : string) :
  ∃ spaces, s = spaces +:+ Py.lstrip s ∧ all_space spaces = true.
Proof.
  induction s as [|c s (spaces & Hs & Hspaces)]; [by exists ""|].
  cbn. destruct (Py.isspace c) eqn:Hc.
  - exists (String c spaces). split.
    + change (String c spaces +:+ Py.lstrip s)
        with (String c (spaces +:+ Py.lstrip s)). by rewrite <- Hs.
    + cbn. by rewrite Hc.
  - by exists "".
Qed.

Lemma lstrip_head (s : string) (c : ascii) (t : string) :
  Py.lstrip s = String c t → Py.isspace c = false.
Proof.
  induction s as [|d s IH]; [done|]. cbn.
  destruct (Py.isspace d) eqn:Hd; [done|]. by intros [= <- _].
Qed.

Lemma lstrip_empty_iff (s : string) :
  Py.lstrip s = "" ↔ all_space s = true.
Proof.
  induction s as [|c s IH]; [done|]. cbn.
  destruct (Py.isspace c); [done|]. by split.
Qed.

Lemma lstrip_unchanged (s : string) :
  (∀ c t, s = String c t → Py.isspace c = false) → Py.lstrip s = s.
Proof.
  destruct s as [|c s]; [done|]. intros H. cbn. by rewrite (H c s eq_refl).
Qed.

Lemma lstrip_idempotent (s : string) : Py.lstrip (Py.lstrip s) = Py.lstrip s.
Proof.
  apply lstrip_unchanged. intros c t. apply lstrip_head.
Qed.

Lemma rstrip_split (s : string) :
  ∃ spaces, s = Py.rstrip s +:+ spaces ∧ all_space spaces = true.
Proof.
  destruct (lstrip_split (String.rev s)) as (spaces & Hs & Hspaces).
  exists (String.rev spaces). split; [|by rewrite all_space_rev].
  apply (f_equal String.rev) in Hs.
  by rewrite rev_involutive, rev_append in Hs.
Qed.

Lemma all_space_lstrip (s : string) : all_space (Py.lstrip s) = all_space s.
Proof.
  destruct (lstrip_split s) as (spaces & Hs & Hspaces).
  rewrite Hs at 2. by rewrite all_space_append, Hspaces.
Qed.

Lemma strip_empty_iff (s : string) : Py.strip s = "" ↔ all_space s = true.
Proof.
  unfold Py.strip, Py.rstrip.
  by rewrite rev_empty_iff, lstrip_empty_iff, all_space_rev, all_space_lstrip.
Qed.

Lemma strip_head (s : string) (c : ascii) (t : string) :
  Py.strip s = String c t → Py.isspace c = false.
Proof.
  unfold Py.strip. intros Hs.
  destruct (rstrip_split (Py.lstrip s)) as (spaces & Hsplit & _).
  rewrite Hs in Hsplit.
  change (String c t +:+ spaces) with (String c (t +:+ spaces)) in Hsplit.
  by apply lstrip_head in Hsplit.
Qed.

Lemma strip_rev_head (s : string) (c : ascii) (t : string) :
  String.rev (Py.strip s) = String c t → Py.isspace c = false.
Proof.
  unfold Py.strip, Py.rstrip. rewrite rev_involutive. apply lstrip_head.
Qed.

Lemma strip_idempotent (s : string) : Py.strip (Py.strip s) = Py.strip s.
Proof.
  unfold Py.strip at 1.
  rewrite (lstrip_unchanged (Py.strip s)) by (intros c t; apply strip_head).
  unfold Py.strip, Py.rstrip.
  by rewrite rev_involutive, lstrip_idempotent.
Qed.

Lemma chars_append (a b : string) : chars (a +:+ b) = (chars a ++ chars b)%list.
Proof.
  induction a as [|c a IH]; [done|].
  change (String c a +:+ b) with (String c (a +:+ b)). cbn. by rewrite IH.
Qed.

Lemma chars_rev (s : string) : chars (String.rev s) = reverse (chars s).
Proof.
  induction s as [|c s IH]; [done|].
  rewrite rev_cons, chars_append, IH. cbn [chars]. by rewrite reverse_cons.
Qed.

Lemma length_chars (s : string) : length (chars s) = String.length s.
Proof. induction s as [|c s IH]; cbn; [done|]. by rewrite IH. Qed.

Lemma length_replace (old new : ascii) (s : string) :
  String.length (Py.replace old new s) = String.length s.
Proof. induction s as [|c s IH]; cbn; [done|]. by rewrite IH. Qed.

Lemma replace_removes (old new : ascii) (s : string) :
  new ≠ old → old ∉ chars (Py.replace old new s).
Proof.
  intros Hne. induction s as [|c s IH]; cbn.
  - apply not_elem_of_nil.
  - apply not_elem_of_cons. split; [|done]. by case_decide.
Qed.

Lemma hex_digit_is_hex (d : N) :
  (d < 16)%N → is_hex_digit (Py.hex_digit d) = true.
Proof.
  intros Hd. unfold is_hex_digit, Py.hex_digit, nat_of_ascii. cbv zeta.
  destruct (N.ltb_spec d 10); rewrite N_ascii_embedding by lia.
  - apply orb_true_iff. left. apply andb_true_iff.
    split; apply Nat.leb_le; lia.
  - apply orb_true_iff. right. apply andb_true_iff.
    split; apply Nat.leb_le; lia.
Qed.

Lemma hex_fixed_digits (w : nat) (n : N) :
  Forall (λ c, is_hex_digit c = true) (chars (Py.hex_fixed w n)).
Proof.
  revert n. induction w as [|w IH]; intros n; cbn [Py.hex_fixed].
  - apply Forall_nil_2.
  - rewrite chars_append. apply Forall_app. split; [apply IH|].
    apply Forall_singleton, hex_digit_is_hex. by apply N.mod_lt.
Qed.

Lemma append_inj_length (a b x y : string) :
  String.length a = String.length b → a +:+ x = b +:+ y → a = b ∧ x = y.
Proof.
  revert b. induction a as [|c a IH]; intros [|d b]; cbn; try done.
  intros [= Hlen] [= -> H]. by destruct (IH b Hlen H) as [-> ->].
Qed.

End Strings.

(* ===================================================================== *)
(** ** Further properties of the setup flow *)
(* ===================================================================== *)

Section SetupMore.
Import setup.

Lemma query_device_cases (rnd : N) (input_values : gmap string string) :
  let address := Py.strip (default "" (input_values !! "address")) in
  (address = "" ∧ query_device rnd input_values = Form _DEMO_INPUT_SCHEMA)
  ∨ (address ≠ ""
     ∧ query_device rnd input_values =
       Config
         {| const.identifier :=
              "demo_" +:+ Py.replace "." "_" address +:+ "_" +:+ short_id rnd;
            const.name := "Demo (" +:+ address +:+ ")";
            const.address := address |}).
Proof.
  intros address. rewrite query_device_run. fold address.
  destruct (decide (address = "")); [by left | by right].
Qed.

(** X14: [query_device] returns the setup form exactly when the address
    field is missing from the submitted values or holds white space only;
    for every other submission it returns a configuration record.  It never
    returns a setup error: the three [except] clauses cannot be reached. *)
Theorem query_device_form_iff_blank
    (rnd : N) (input_values : gmap string string) :
  (query_device rnd input_values = Form get_manual_entry_form
   ↔ input_values !! "address" = None
     ∨ ∃ value, input_values !! "address" = Some value
                ∧ all_space value = true)
  ∧ (query_device rnd input_values ≠ Form get_manual_entry_form →
     ∃ config, query_device rnd input_values = Config config)
  ∧ ∀ e, query_device rnd input_values ≠ Error e.
Proof.
  assert (Py.strip (default "" (input_values !! "address")) = ""
          ↔ input_values !! "address" = None
            ∨ ∃ value, input_values !! "address" = Some value
                       ∧ all_space value = true) as Hblank.
  { rewrite strip_empty_iff.
    destruct (input_values !! "address") as [value|]; cbn.
    - split; [by right; exists value|]. by intros [|(? & [= <-] & ?)].
    - split; [by left | done]. }
  destruct (query_device_cases rnd input_values) as [[Hempty ->]|[Hfilled ->]].
  - split; [|split]; [|done..]. split; [|done]. intros _. by apply Hblank.
  - split; [|split]; [| by eexists | done].
    split; [done|]. intros H. by apply Hblank in H.
Qed.

(** X15: [query_device] reads the address field and nothing else: adding,
    changing or removing any other submitted field changes nothing of what
    it returns. *)
Theorem query_device_only_reads_address
    (rnd : N) (input_values : gmap string string) (key value : string) :
  key ≠ "address" →
  query_device rnd (<[key := value]> input_values)
  = query_device rnd input_values
  ∧ query_device rnd (delete key input_values)
    = query_device rnd input_values.
Proof.
  intros Hkey. rewrite !query_device_run. cbv zeta.
  by rewrite lookup_insert_ne, lookup_delete_ne.
Qed.

(** X16: the address of a returned configuration record is trimmed: it is
    not empty, neither its first nor its last character is white space, and
    trimming it again changes nothing.  Submitting that address again, with
    the same UUID drawn, gives the same record back. *)
Theorem config_address_is_trimmed
    (rnd : N) (input_values : gmap string string) (config : DemoConfig) :
  query_device rnd input_values = Config config →
  const.address config ≠ ""
  ∧ Py.strip (const.address config) = const.address config
  ∧ (∀ c, head (chars (const.address config)) = Some c →
          Py.isspace c = false)
  ∧ (∀ c, last (chars (const.address config)) = Some c →
          Py.isspace c = false)
  ∧ query_device rnd {[ "address" := const.address config ]} = Config config.
Proof.
  destruct (query_device_cases rnd input_values) as [[_ ->]|[Hfilled ->]];
    [done|].
  intros [= <-]. cbn [const.address].
  set (address := Py.strip (default "" (input_values !! "address"))) in *.
  split; [done|]. split; [apply strip_idempotent|].
  split; [|split].
  - intros c Hc. destruct address as [|c' t] eqn:Haddr; [done|].
    cbn in Hc. injection Hc as ->. by eapply strip_head.
  - intros c. rewrite <- head_reverse, <- chars_rev.
    destruct (String.rev address) as [|c' t] eqn:Hrev; [done|].
    cbn. intros [= ->]. by eapply strip_rev_head.
  - rewrite query_device_run. cbv zeta. rewrite lookup_singleton_eq.
    cbn [default]. unfold id. subst address. rewrite strip_idempotent.
    by rewrite decide_False.
Qed.

Lemma short_id_digits (rnd : N) :
  String.length (short_id rnd) = 8
  ∧ Forall (λ c, is_hex_digit c = true) (chars (short_id rnd)).
Proof.
  rewrite short_id_leading_bytes. split.
  - apply length_hex_fixed.
  - apply hex_fixed_digits.
Qed.

(** X17: the shape of a generated identifier.  It is "demo_", then as many
    characters as the address has, then "_", then eight lower-case
    hexadecimal digits: fourteen characters more than the address.  It
    contains no dot, the character the framework puts between entity type
    and device id. *)
Theorem identifier_shape
    (rnd : N) (input_values : gmap string string) (config : DemoConfig) :
  query_device rnd input_values = Config config →
  (∃ normalized token,
     const.identifier config = "demo_" +:+ normalized +:+ "_" +:+ token
     ∧ String.length normalized = String.length (const.address config)
     ∧ String.length token = 8
     ∧ Forall (λ c, is_hex_digit c = true) (chars token))
  ∧ String.length (const.identifier config)
    = String.length (const.address config) + 14
  ∧ "."%char ∉ chars (const.identifier config).
Proof.
  destruct (query_device_cases rnd input_values) as [[_ ->]|[Hfilled ->]];
    [done|].
  intros [= <-]. cbn [const.address const.identifier].
  set (address := Py.strip (default "" (input_values !! "address"))) in *.
  destruct (short_id_digits rnd) as [Hlen Hdigits].
  split; [|split].
  - exists (Py.replace "." "_" address), (short_id rnd).
    split; [done|]. split; [apply length_replace|]. done.
  - rewrite !length_append, length_replace, Hlen. cbn. lia.
  - rewrite !chars_append. rewrite !not_elem_of_app.
    split; [by_evaluation|]. split; [by apply replace_removes|].
    split; [by_evaluation|].
    intros Hdot. rewrite Forall_forall in Hdigits.
    by apply Hdigits in Hdot.
Qed.

(** X18: two configuration records, from any two submissions, get the same
    identifier exactly when their addresses are the same once dots are
    replaced by underscores and their UUIDs start with the same four random
    bytes.  Addresses that differ only in a dot against an underscore
    therefore share the first part of their identifier. *)
Theorem identifier_equal_iff
    (rnd1 rnd2 : N) (input_values1 input_values2 : gmap string string)
    (config1 config2 : DemoConfig) :
  query_device rnd1 input_values1 = Config config1 →
  query_device rnd2 input_values2 = Config config2 →
  (const.identifier config1 = const.identifier config2
   ↔ Py.replace "." "_" (const.address config1)
     = Py.replace "." "_" (const.address config2)
     ∧ leading_bytes rnd1 = leading_bytes rnd2).
Proof.
  destruct (query_device_cases rnd1 input_values1) as [[_ ->]|[_ ->]];
    [done|].
  destruct (query_device_cases rnd2 input_values2) as [[_ ->]|[_ ->]];
    [done|].
  intros [= <-] [= <-]. cbn [const.address const.identifier].
  rewrite <- short_id_eq_iff. split.
  - intros Heq. apply append_inj_prefix in Heq.
    rewrite <- !append_assoc in Heq.
    assert (String.length (short_id rnd1) = String.length (short_id rnd2))
      as Htok by (by rewrite !(proj1 (short_id_digits _))).
    apply append_inj_length in Heq as [Heq ?].
    + split; [|done].
      apply (f_equal String.rev) in Heq. rewrite !rev_append in Heq.
      apply append_inj_prefix in Heq.
      apply (f_equal String.rev) in Heq. by rewrite !rev_involutive in Heq.
    + apply (f_equal String.length) in Heq.
      rewrite !length_append in Heq. rewrite !length_append. lia.
  - by intros [-> ->].
Qed.

End SetupMore.

Lemma query_device_form_iff_blank_witness :
  setup.query_device 7 {[ "name" := "den" ]}
  = setup.Form setup.get_manual_entry_form
  ∧ ∃ config,
      setup.query_device 7 {[ "address" := " 10.0.0.7" ]}
      = setup.Config config.
Proof.
  split.
  - apply (proj1 (query_device_form_iff_blank 7 {[ "name" := "den" ]})).
    left. vm_compute. reflexivity.
  - apply (proj1 (proj2 (query_device_form_iff_blank 7
                           {[ "address" := " 10.0.0.7" ]}))).
    vm_compute. discriminate.
Defined.

Lemma query_device_only_reads_address_witness :
  setup.query_device 7 (<[ "name" := "den" ]> {[ "address" := "10.0.0.7" ]})
  = setup.query_device 7 {[ "address" := "10.0.0.7" ]}
  ∧ setup.query_device 7 (delete "name" {[ "address" := "10.0.0.7" ]})
    = setup.query_device 7 {[ "address" := "10.0.0.7" ]}.
Proof.
  apply (query_device_only_reads_address 7 {[ "address" := "10.0.0.7" ]}
           "name" "den").
  discriminate.
Defined.

Lemma config_address_is_trimmed_witness :
  "10.0.0.7" ≠ ""
  ∧ Py.strip "10.0.0.7" = "10.0.0.7"
  ∧ (∀ c, head (chars "10.0.0.7") = Some c → Py.isspace c = false)
  ∧ (∀ c, last (chars "10.0.0.7") = Some c → Py.isspace c = false)
  ∧ setup.query_device 0 {[ "address" := "10.0.0.7" ]}
    = setup.Config
        {| const.identifier := "demo_10_0_0_7_00000000";
           const.name := "Demo (10.0.0.7)";
           const.address := "10.0.0.7" |}.
Proof.
  apply (config_address_is_trimmed 0 {[ "address" := "  10.0.0.7 " ]}
           {| const.identifier := "demo_10_0_0_7_00000000";
              const.name := "Demo (10.0.0.7)";
              const.address := "10.0.0.7" |}).
  vm_compute. reflexivity.
Defined.

Lemma identifier_shape_witness :
  (∃ normalized token,
     "demo_10_0_0_7_00000000" = "demo_" +:+ normalized +:+ "_" +:+ token
     ∧ String.length normalized = String.length "10.0.0.7"
     ∧ String.length token = 8
     ∧ Forall (λ c, is_hex_digit c = true) (chars token))
  ∧ String.length "demo_10_0_0_7_00000000" = String.length "10.0.0.7" + 14
  ∧ "."%char ∉ chars "demo_10_0_0_7_00000000".
Proof.
  apply (identifier_shape 0 {[ "address" := "  10.0.0.7 " ]}
           {| const.identifier := "demo_10_0_0_7_00000000";
              const.name := "Demo (10.0.0.7)";
              const.address := "10.0.0.7" |}).
  vm_compute. reflexivity.
Defined.

Lemma identifier_equal_iff_witness :
  "demo_10_0_0_7_00000000" = "demo_10_0_0_7_00000000"
  ↔ Py.replace "." "_" "10.0.0.7" = Py.replace "." "_" "10_0.0_7"
    ∧ leading_bytes 0 = leading_bytes 1.
Proof.
  apply (identifier_equal_iff 0 1
           {[ "address" := "10.0.0.7" ]} {[ "address" := "10_0.0_7" ]}
           {| const.identifier := "demo_10_0_0_7_00000000";
              const.name := "Demo (10.0.0.7)";
              const.address := "10.0.0.7" |}
           {| const.identifier := "demo_10_0_0_7_00000000";
              const.name := "Demo (10_0.0_7)";
              const.address := "10_0.0_7" |});
    vm_compute; reflexivity.
Defined.

(* ===================================================================== *)
(** ** From the setup flow to the device *)
(* ===================================================================== *)

(** X19: a device built from a configuration record that [query_device]
    returned logs under the name "Demo (address)" and never under its
    identifier, the generated name being non-empty; this is so at
    construction and after every sequence of calls, on any show list. *)
Theorem log_id_of_configured_device
    (pool : list string) (create_entity_id : EntityTypes → string → string)
    (rnd : N) (input_values : gmap string string) (config : DemoConfig)
    (calls : list (Operation * nat)) :
  setup.query_device rnd input_values = setup.Config config →
  log_id (host.run_ops pool create_entity_id calls (__init__ config)).2
  = "Demo (" +:+ const.address config +:+ ")"
  ∧ log_id (host.run_ops pool create_entity_id calls (__init__ config)).2
    ≠ const.identifier config.
Proof.
  destruct (query_device_cases rnd input_values) as [[_ ->]|[_ ->]]; [done|].
  intros [= <-]. unfold log_id, name, identifier.
  rewrite run_ops_keeps_config. cbn [_device_config __init__ const.name
                                      const.identifier const.address].
  rewrite decide_True by done. split; [done|].
  intros Heq. unfold String.append in Heq. discriminate Heq.
Qed.

Lemma log_id_of_configured_device_witness :
  log_id
    (host.run_ops TV_SHOWS dotted_entity_id
       [(EstablishConnection, 2); (PollTick, 5)]
       (__init__
          {| const.identifier := "demo_10_0_0_7_00000000";
             const.name := "Demo (10.0.0.7)";
             const.address := "10.0.0.7" |})).2
  = "Demo (" +:+ "10.0.0.7" +:+ ")"
  ∧ log_id
      (host.run_ops TV_SHOWS dotted_entity_id
         [(EstablishConnection, 2); (PollTick, 5)]
         (__init__
            {| const.identifier := "demo_10_0_0_7_00000000";
               const.name := "Demo (10.0.0.7)";
               const.address := "10.0.0.7" |})).2
    ≠ "demo_10_0_0_7_00000000".
Proof.
  apply (log_id_of_configured_device TV_SHOWS dotted_entity_id 0
           {[ "address" := "  10.0.0.7 " ]}
           {| const.identifier := "demo_10_0_0_7_00000000";
              const.name := "Demo (10.0.0.7)";
              const.address := "10.0.0.7" |}
           [(EstablishConnection, 2); (PollTick, 5)]).
  vm_compute. reflexivity.
Defined.

(* ===================================================================== *)
(** ** Connecting and polling *)
(* ===================================================================== *)

Section Polling.
Context (create_entity_id : EntityTypes → string → string).

Abbreviation run_ops := (host.run_ops TV_SHOWS create_entity_id).

(** X20: [establish_connection] does not depend on the state it finds: on
    every device, a playing or paused one included, it returns with the
    state ON, a title of the show list other than the previous title, the
    snapshot showing both, and nothing emitted.  Connecting twice is
    therefore not the same as connecting once: the title changes again. *)
Theorem establish_connection_resets_to_ON (r : nat) (self : DemoDevice) :
  ∃ self', establish_connection TV_SHOWS r self = (Returned tt, self')
           ∧ _power_state self' = ON
           ∧ _media_title self' ∈ TV_SHOWS
           ∧ _media_title self' ≠ _media_title self
           ∧ STATE (attributes self') = ON
           ∧ MEDIA_TITLE (attributes self') = _media_title self'
           ∧ events self' = events self.
Proof.
  rewrite establish_connection_run, power_on_run.
  destruct (choice_available TV_SHOWS r (_media_title self)
              TV_SHOWS_two_distinct) as (show & -> & Hin & Hne).
  eexists. split; [reflexivity|]. by read_fields.
Qed.

Lemma adjacent_distinct_snoc (titles : list string) (a b : string) :
  adjacent_distinct (titles ++ [a]) → a ≠ b →
  adjacent_distinct ((titles ++ [a]) ++ [b]).
Proof.
  induction titles as [|x titles IH]; cbn; [done|].
  destruct titles as [|y titles]; cbn in *; [by intros [??]|].
  intros [? Hrest] Hab. split; [done|]. by apply IH.
Qed.

Lemma titles_snoc (a : string) (titles : list string) :
  ∃ init x, a :: titles = (init ++ [x])%list.
Proof.
  induction titles as [|y titles _] using rev_ind.
  - by exists [], a.
  - exists (a :: titles), y. by rewrite app_comm_cons.
Qed.

Lemma ticks_emit (draws : list nat) (self : DemoDevice) :
  _power_state self ∈ [ON; PLAYING] →
  ∃ self' new,
    run_ops (ticks draws) self = (Returned tt, self')
    ∧ _power_state self' = _power_state self
    ∧ events self' = (events self ++ new)%list
    ∧ length new = length draws
    ∧ Forall (λ e, ev_STATE e = _power_state self) new
    ∧ adjacent_distinct (_media_title self :: (ev_MEDIA_TITLE <$> new))
    ∧ last (_media_title self :: (ev_MEDIA_TITLE <$> new))
      = Some (_media_title self').
Proof.
  intros Hst. induction draws as [|r draws IH] using rev_ind.
  - exists self, []. rewrite !app_nil_r. by cbn.
  - destruct IH as (mid & new & Hrun & Hstate & Hevents & Hlen & Hstates
                    & Hdistinct & Hlast).
    pose proof (poll_device_run TV_SHOWS create_entity_id r mid) as Hpoll.
    rewrite decide_True in Hpoll by (by rewrite Hstate).
    destruct (choice_available TV_SHOWS r (_media_title mid)
                TV_SHOWS_two_distinct) as (show & Hshow & Hin & Hne).
    rewrite Hshow in Hpoll. cbv zeta in Hpoll.
    eexists. exists (new ++ [state_update create_entity_id
                               (copied_to_attributes
                                  (set__media_title show mid))])%list.
    split.
    { unfold ticks in *. rewrite fmap_app.
      rewrite (run_ops_app create_entity_id _ _ _ _ Hrun). cbn.
      unfold Eff.bind. rewrite Hpoll. reflexivity. }
    read_fields. split; [done|].
    split; [by rewrite Hevents, app_assoc|].
    split; [rewrite !length_app, Hlen; cbn; lia|].
    split; [apply Forall_app; split; [done|]; by apply Forall_singleton|].
    rewrite fmap_app. cbn [fmap list_fmap]. read_fields.
    rewrite app_comm_cons.
    destruct (titles_snoc (_media_title self) (ev_MEDIA_TITLE <$> new))
      as (init & x & Hinit).
    rewrite Hinit in *. rewrite last_snoc in Hlast. injection Hlast as ->.
    split; [by apply adjacent_distinct_snoc | by rewrite last_snoc].
Qed.

Lemma ticks_idle (draws : list nat) (self : DemoDevice) :
  _power_state self ∉ [ON; PLAYING] →
  run_ops (ticks draws) self = (Returned tt, self).
Proof.
  intros Hst. induction draws as [|r draws IH]; [done|].
  cbn. unfold Eff.bind. rewrite poll_device_run, decide_False by done.
  exact IH.
Qed.

(** X21: the polling loop.  On a device that is ON or PLAYING, [n] polls in
    a row emit exactly [n] events, all in the unchanged state of the device;
    each carries a title different from the one before it, the first from
    the title the device had, and the last is the title the device shows
    afterwards.  On a device that is OFF or PAUSED any number of polls
    leaves the device exactly as it was. *)
Theorem polling_loop (draws : list nat) (self : DemoDevice) :
  (_power_state self = ON ∨ _power_state self = PLAYING →
   ∃ self' new,
     run_ops (ticks draws) self = (Returned tt, self')
     ∧ _power_state self' = _power_state self
     ∧ events self' = (events self ++ new)%list
     ∧ length new = length draws
     ∧ Forall (λ e, ev_STATE e = _power_state self) new
     ∧ adjacent_distinct (_media_title self :: (ev_MEDIA_TITLE <$> new))
     ∧ last (_media_title self :: (ev_MEDIA_TITLE <$> new))
       = Some (_media_title self'))
  ∧ (_power_state self = OFF ∨ _power_state self = PAUSED →
     run_ops (ticks draws) self = (Returned tt, self)).
Proof.
  split.
  - intros Hst. apply ticks_emit. destruct Hst as [-> | ->]; by_evaluation.
  - intros Hst. apply ticks_idle. destruct Hst as [-> | ->]; by_evaluation.
Qed.

End Polling.

Lemma polling_loop_witness :
  (∃ self' new,
     host.run_ops TV_SHOWS dotted_entity_id (ticks [4; 4; 9])
       (device_in PLAYING "Fargo")
     = (Returned tt, self')
     ∧ _power_state self' = PLAYING
     ∧ events self' = new
     ∧ length new = 3
     ∧ Forall (λ e, ev_STATE e = PLAYING) new
     ∧ adjacent_distinct ("Fargo" :: (ev_MEDIA_TITLE <$> new))
     ∧ last ("Fargo" :: (ev_MEDIA_TITLE <$> new)) = Some (_media_title self'))
  ∧ host.run_ops TV_SHOWS dotted_entity_id (ticks [4; 4; 9])
      (device_in PAUSED "Fargo")
    = (Returned tt, device_in PAUSED "Fargo").
Proof.
  split.
  - apply (proj1 (polling_loop dotted_entity_id [4; 4; 9]
                    (device_in PLAYING "Fargo"))).
    right. reflexivity.
  - apply (proj2 (polling_loop dotted_entity_id [4; 4; 9]
                    (device_in PAUSED "Fargo"))).
    right. reflexivity.
Defined.

Example three_polls_while_playing :
  ev_MEDIA_TITLE
  <$> events (host.run_ops TV_SHOWS dotted_entity_id (ticks [4; 4; 9])
                (device_in PLAYING "Fargo")).2
  = ["Mad Men"; "The Office"; "Ted Lasso"].
Proof. vm_compute. reflexivity. Qed.
